(** * A file-per-record JSON document store: model and verification

    This development embeds [main.go] (the [Driver] type with [New], [Write],
    [Read], [ReadAll], [Delete] and the helper [stat]) over an executable
    model of the parts of the Go standard library it calls:

    - [path/filepath]: [Clean] and [Join] (Unix flavour), on strings;
    - [os] and [io/ioutil]: [Stat], [MkdirAll], [WriteFile], [Rename],
      [ReadFile], [ReadDir], [RemoveAll], on an in-memory directory tree;
    - [encoding/json]: [Marshal] and [Unmarshal], as an interface ([Codec]).

    Modelling assumptions, valid for the whole file:

    - one thread of control: the mutexes of [Driver] are taken and released
      without effect, so the lock table is left out of [Driver];
    - the logger only prints diagnostics and is left out;
    - the file system has directories and regular files only (no symbolic
      links, no permission or disk-space failures); a path is resolved
      lexically from the root or from the working directory;
    - every byte string is a name: the calls of [os] do not fail with
      [EINVAL] on a path that holds a NUL byte, nor with [ENAMETOOLONG] on
      a name beyond the limit of the file system. *)

From Stdlib Require Import Ascii String.
From stdpp Require Import gmap strings list fin_maps sorting.

Set Warnings "-register-all".
Open Scope string_scope.

(** ** Errors and results *)

(** Go's [error] values that the program can produce: the errno carried by an
    [*os.PathError] or [*os.LinkError], a message built by [fmt.Errorf], or an
    error of the codec. *)
Inductive error :=
  | ENOENT | ENOTDIR | EISDIR | EEXIST | EINVAL | EBUSY
  | Errorf (msg : string)
  | CodecError (msg : string).

#[global] Instance error_eq_dec : EqDecision error.
Proof. solve_decision. Defined.

(** [os.IsNotExist]. *)
Definition IsNotExist (e : error) : bool :=
  match e with ENOENT => true | _ => false end.

Inductive result (A : Type) :=
  | Ok (a : A)
  | Err (e : error).
Arguments Ok {A} a.
Arguments Err {A} e.

#[global] Instance result_ret : MRet result := λ A a, Ok a.
#[global] Instance result_bind : MBind result := λ A B f r,
  match r with Ok a => f a | Err e => Err e end.

Definition is_Ok {A} (r : result A) : bool :=
  match r with Ok _ => true | Err _ => false end.

(** ** Paths: [path/filepath] on Unix *)

Module filepath.

(** [strings.Split(s, "/")]: the elements of [s] between separators. *)
Fixpoint split (s : string) : list string :=
  match s with
  | EmptyString => [""]
  | String c s' =>
      if Ascii.eqb c "/"%char then "" :: split s'
      else match split s' with
           | x :: l => String c x :: l
           | [] => [String c ""]
           end
  end.

(** [strings.Join(elem, "/")]. *)
Fixpoint join (elem : list string) : string :=
  match elem with
  | [] => ""
  | [x] => x
  | x :: rest => x +:+ "/" +:+ join rest
  end.

Definition rooted (path : string) : bool :=
  match path with String c _ => Ascii.eqb c "/"%char | EmptyString => false end.

(** One round of the loop of [Clean], on the element read next. [out] is the
    output buffer as a stack of elements, last written first. An empty
    element and [.] are dropped; [..] removes the last element when there is
    one to remove ([out.w > dotdot]), is dropped at the root, and is kept
    otherwise; any other element is copied. *)
Definition clean_step (is_rooted : bool) (out : list string) (elem : string)
  : list string :=
  if String.eqb elem "" || String.eqb elem "." then out
  else if String.eqb elem ".." then
    match out with
    | top :: out' => if String.eqb top ".." then ".." :: out else out'
    | [] => if is_rooted then [] else [".."]
    end
  else elem :: out.

Definition clean_stack (path : string) : list string :=
  fold_left (clean_step (rooted path)) (split path) [].

(** [filepath.Clean]. *)
Definition Clean (path : string) : string :=
  if String.eqb path "" then "."
  else
    let out := rev (clean_stack path) in
    if rooted path then "/" +:+ join out
    else match out with [] => "." | _ => join out end.

(** [filepath.Join]: leading empty elements are ignored, the rest is joined
    with separators and cleaned; the empty string when all are empty. *)
Fixpoint Join (elem : list string) : string :=
  match elem with
  | [] => ""
  | e :: rest => if String.eqb e "" then Join rest else Clean (join elem)
  end.

End filepath.

(** ** The file system: [os] and [io/ioutil] *)

(** A file-system object: a regular file with its bytes, or a directory with
    its entries by name. *)
Inductive node :=
  | File (data : string)
  | Dir (entries : gmap string node).

(** The state of the world outside the process: the tree below [/] and the
    working directory of the process, as the names from [/] down to it. *)
Record filesystem := {
  root : node;
  cwd : list string
}.

(** What the program looks at in an [os.FileInfo]: [Mode().IsDir()] or
    [Mode().IsRegular()]. *)
Inductive FileInfo := IsDir | IsRegular.

Definition info_of (n : node) : FileInfo :=
  match n with File _ => IsRegular | Dir _ => IsDir end.

Module os.

(** Name resolution, one element at a time; [stack] holds the names from the
    root to the current directory, innermost first. *)
Definition resolve_step (stack : list string) (elem : string) : list string :=
  if String.eqb elem "" || String.eqb elem "." then stack
  else if String.eqb elem ".." then tail stack
  else elem :: stack.

(** The names from the root to the object [path] denotes. *)
Definition resolve (wd : list string) (path : string) : list string :=
  rev (fold_left resolve_step (filepath.split path)
         (if filepath.rooted path then [] else rev wd)).

(** The empty path names nothing. *)
Definition locate (fs : filesystem) (path : string) : result (list string) :=
  if String.eqb path "" then Err ENOENT else Ok (resolve (cwd fs) path).

(** Follows the names [p] from [n] downwards. *)
Fixpoint walk (n : node) (p : list string) : result node :=
  match p with
  | [] => Ok n
  | x :: p' =>
      match n with
      | File _ => Err ENOTDIR
      | Dir m =>
          match m !! x with
          | None => Err ENOENT
          | Some n' => walk n' p'
          end
      end
  end.

Definition set_entry (x : string) (o : option node) (m : gmap string node)
  : gmap string node :=
  match o with Some n => <[x := n]> m | None => delete x m end.

(** Replaces the entry that [p] names, in the directory that holds it, by
    what [f] makes of it ([None]: no entry). Every name before the last must
    be an existing directory. *)
Fixpoint modify (n : node) (p : list string)
    (f : option node → result (option node)) : result node :=
  match n with
  | File _ => Err ENOTDIR
  | Dir m =>
      match p with
      | [] => Err EINVAL
      | x :: p' =>
          match p' with
          | [] => o ← f (m !! x); Ok (Dir (set_entry x o m))
          | _ :: _ =>
              match m !! x with
              | None => Err ENOENT
              | Some n' => n'' ← modify n' p' f; Ok (Dir (<[x := n'']> m))
              end
          end
      end
  end.

(** Creates the directories along [p] that are missing. *)
Fixpoint mkdir_all (n : node) (p : list string) : result node :=
  match n with
  | File _ => Err ENOTDIR
  | Dir m =>
      match p with
      | [] => Ok n
      | x :: p' =>
          n' ← mkdir_all (default (Dir ∅) (m !! x)) p';
          Ok (Dir (<[x := n']> m))
      end
  end.

(** [os.Stat]. *)
Definition Stat (path : string) (fs : filesystem) : result FileInfo :=
  p ← locate fs path; n ← walk (root fs) p; Ok (info_of n).

(** [ioutil.ReadFile]. *)
Definition ReadFile (path : string) (fs : filesystem) : result string :=
  p ← locate fs path;
  n ← walk (root fs) p;
  match n with File data => Ok data | Dir _ => Err EISDIR end.

(** [ioutil.ReadDir]: the names of the entries, sorted by name. *)
Definition ReadDir (path : string) (fs : filesystem) : result (list string) :=
  p ← locate fs path;
  n ← walk (root fs) p;
  match n with
  | File _ => Err ENOTDIR
  | Dir m => Ok (merge_sort (λ x y, String.leb x y) (map fst (map_to_list m)))
  end.

Definition with_root (fs : filesystem) (r : result node)
  : result unit * filesystem :=
  match r with
  | Ok n => (Ok (), {| root := n; cwd := cwd fs |})
  | Err e => (Err e, fs)
  end.

(** [os.MkdirAll]: nothing to do for a directory that exists; an error, and
    no change, when an object on the way is a regular file. *)
Definition MkdirAll (path : string) (fs : filesystem)
  : result unit * filesystem :=
  with_root fs (p ← locate fs path; mkdir_all (root fs) p).

(** [ioutil.WriteFile]: creates or truncates a regular file in an existing
    directory. *)
Definition WriteFile (path data : string) (fs : filesystem)
  : result unit * filesystem :=
  with_root fs
    (p ← locate fs path;
     match p with
     | [] => Err EISDIR
     | _ => modify (root fs) p (λ o,
              match o with
              | Some (Dir _) => Err EISDIR
              | _ => Ok (Some (File data))
              end)
     end).

(** [os.Rename]. Go refuses a new name that is an existing directory
    ([EEXIST]) unless both names denote that same directory; otherwise
    [rename(2)]: the old name must exist, a directory moves neither into
    itself nor onto a regular file, and the object replaces what the new name
    denoted. *)
Definition Rename (oldname newname : string) (fs : filesystem)
  : result unit * filesystem :=
  with_root fs
    (po ← locate fs oldname;
     pn ← locate fs newname;
     n ← walk (root fs) po;
     let target := walk (root fs) pn in
     if bool_decide (po = pn) then
       match target with
       | Ok (Dir _) =>
           if String.eqb oldname newname then Err EEXIST else Ok (root fs)
       | _ => Ok (root fs)
       end
     else
       match target with
       | Ok (Dir _) => Err EEXIST
       | _ =>
           if bool_decide (po `prefix_of` pn) then Err EINVAL
           else
             match n, target with
             | Dir _, Ok (File _) => Err ENOTDIR
             | _, _ =>
                 r ← modify (root fs) po (λ _, Ok None);
                 modify r pn (λ _, Ok (Some n))
             end
       end).

(** [endsWithDot] of package [os]: the last element of [path] is [.]. *)
Fixpoint ends_slash_dot (s : string) : bool :=
  match s with
  | EmptyString => false
  | String _ s' => String.eqb s "/." || ends_slash_dot s'
  end.

Definition endsWithDot (path : string) : bool :=
  String.eqb path "." || ends_slash_dot path.

(** [os.RemoveAll]: removes [path] and what it contains. No error when the
    path is empty or does not exist; [EINVAL] for a path that ends in [.].
    The root directory itself is emptied and stays. A path whose last
    element is [..] is treated as the directory it denotes, where Go empties
    that directory and then fails to remove it; the statements about
    [Delete] below take paths that end in a name. *)
Definition RemoveAll (path : string) (fs : filesystem)
  : result unit * filesystem :=
  if String.eqb path "" then (Ok (), fs)
  else if endsWithDot path then (Err EINVAL, fs)
  else
    match resolve (cwd fs) path with
    | [] =>
        (Err EBUSY,
         {| root := match root fs with Dir _ => Dir ∅ | f => f end;
            cwd := cwd fs |})
    | p =>
        match modify (root fs) p (λ _, Ok None) with
        | Ok r => (Ok (), {| root := r; cwd := cwd fs |})
        | Err ENOENT => (Ok (), fs)
        | Err e => (Err e, fs)
        end
    end.

End os.

(** ** Names and elements of paths *)

(** No separator in [s]. *)
Fixpoint no_sep (s : string) : bool :=
  match s with
  | EmptyString => true
  | String c s' => negb (Ascii.eqb c "/"%char) && no_sep s'
  end.

(** [l] with [s] appended to its last element. *)
Fixpoint app_last (l : list string) (s : string) : list string :=
  match l with
  | [] => []
  | x :: l' => match l' with [] => [x +:+ s] | _ => x :: app_last l' s end
  end.

(** An element that names an entry of a directory: not empty, not [.] or
    [..], and without separator. *)
Definition real_name (s : string) : bool :=
  negb (String.eqb s "") && negb (String.eqb s ".")
  && negb (String.eqb s "..") && no_sep s.

(** An element that [Clean] and name resolution do not skip. *)
Definition kept (s : string) : Prop := s ≠ "" ∧ s ≠ ".".


(** The last byte of a string. *)
Fixpoint last_char (s : string) : option ascii :=
  match s with
  | EmptyString => None
  | String c s' =>
      match last_char s' with None => Some c | Some d => Some d end
  end.

(** The bytes of the regular file [name] of a directory. *)
Definition content (m : gmap string node) (name : string) : string :=
  match m !! name with Some (File data) => data | _ => "" end.

(** What the stack of [Clean], read from the bottom, resolves to. *)
Definition unwind (init stack : list string) : list string :=
  foldr (λ e acc, os.resolve_step acc e) init stack.

(** Where name resolution starts. *)
Definition start (wd : list string) (path : string) : list string :=
  if filepath.rooted path then [] else rev wd.

(** ** Computations on the file system *)

(** A Go function that returns a value or an [error] and may change the file
    system on the way. *)
Definition io (A : Type) : Type := filesystem → result A * filesystem.

#[global] Instance io_ret : MRet io := λ A a fs, (Ok a, fs).
#[global] Instance io_bind : MBind io := λ A B f m fs,
  match m fs with
  | (Ok a, fs') => f a fs'
  | (Err e, fs') => (Err e, fs')
  end.

(** [return err]. *)
Definition raise {A} (e : error) : io A := λ fs, (Err e, fs).

(** A call that only looks at the file system, with its error kept as a value
    for the caller to inspect. *)
Definition try {A} (f : filesystem → result A) : io (result A) :=
  λ fs, (Ok (f fs), fs).

(** A call that only looks at the file system; an error ends the function
    ([if err != nil { return err }]). *)
Definition check {A} (f : filesystem → result A) : io A := λ fs, (f fs, fs).

(** ** The record codec: [encoding/json] *)

(** [json.Marshal] and [json.Unmarshal] for the values of type [V] that the
    caller stores. *)
Class Codec (V : Type) := {
  Marshal : V → result string;
  Unmarshal : string → result V
}.

(** [byte('\n')]. *)
Definition newline : string := String "010"%char "".

(** ** The driver *)

Record Driver := { dir : string }.

Section driver.
Context {V : Type} `{Codec V}.

(** [New]: cleans the path and opens the database there, creating the
    directory when [os.Stat] finds nothing. The driver is returned in both
    cases, next to the error of [os.MkdirAll]. *)
Definition New (dir : string) (fs : filesystem)
  : (Driver * result unit) * filesystem :=
  let dir := filepath.Clean dir in
  let driver := {| dir := dir |} in
  match os.Stat dir fs with
  | Ok _ => ((driver, Ok ()), fs)
  | Err _ =>
      let '(err, fs') := os.MkdirAll dir fs in ((driver, err), fs')
  end.

(** [stat]: the object at [path] or, when there is none, at [path + ".json"]. *)
Definition stat (path : string) (fs : filesystem) : result FileInfo :=
  match os.Stat path fs with
  | Err e => if IsNotExist e then os.Stat (path +:+ ".json") fs else Err e
  | Ok f => Ok f
  end.

(** [Driver.Write]. *)
Definition Write (d : Driver) (collection resourse : string) (v : V) : io unit :=
  if String.eqb collection "" then raise (Errorf "collection is required")
  else if String.eqb resourse "" then raise (Errorf "resourse is required")
  else
    let dir := filepath.Join [dir d; collection] in
    let fnlPath := filepath.Join [dir; resourse +:+ ".json"] in
    let tmpPath := fnlPath +:+ ".tmp" in
    os.MkdirAll dir;;
    b ← check (λ _, Marshal v);
    let b := b +:+ newline in
    os.WriteFile tmpPath b;;
    os.Rename tmpPath fnlPath.

(** A run of [Write]s into one collection, as in the loop of [main], to the
    first error. *)
Fixpoint write_all (d : Driver) (collection : string)
    (records : list (string * V)) : io unit :=
  match records with
  | [] => mret ()
  | (resource, v) :: rest =>
      Write d collection resource v;; write_all d collection rest
  end.

(** [Driver.Read]. The decoded value is returned instead of stored through
    the pointer [v]. *)
Definition Read (d : Driver) (collection resource : string) : io V :=
  if String.eqb collection "" then raise (Errorf "collection is required")
  else if String.eqb resource "" then raise (Errorf "resource is required")
  else
    let record := filepath.Join [dir d; collection; resource] in
    let read : io V :=
      b ← check (os.ReadFile (record +:+ ".json"));
      check (λ _, Unmarshal b) in
    st ← try (os.Stat record);
    match st with
    | Err err => if IsNotExist err then raise err else read
    | Ok _ => read
    end.

(** The loop of [ReadAll]: the contents of the files named [names] in [dir],
    in that order; the first failure ends it. *)
Fixpoint read_files (dir : string) (names : list string) : io (list string) :=
  match names with
  | [] => mret []
  | name :: rest =>
      b ← check (os.ReadFile (filepath.Join [dir; name]));
      records ← read_files dir rest;
      mret (b :: records)
  end.

(** [Driver.ReadAll]. *)
Definition ReadAll (d : Driver) (collection : string) : io (list string) :=
  if String.eqb collection "" then raise (Errorf "collection is required")
  else
    let dir := filepath.Join [dir d; collection] in
    check (stat dir);;
    files ← check (os.ReadDir dir);
    read_files dir files.

(** [Driver.Delete]. *)
Definition Delete (d : Driver) (collection resource : string) : io unit :=
  let path := filepath.Join [dir d; collection; resource] in
  fi ← try (stat path);
  match fi with
  | Err _ => raise (Errorf (path +:+ " does not exist"))
  | Ok IsDir => os.RemoveAll path
  | Ok IsRegular => os.RemoveAll (path +:+ ".json")
  end.

(** The entry of a record in the collection directory. *)
Definition record_entry (kv : string * V) (b : string) : string * node :=
  (kv.1 +:+ ".json", File (b +:+ newline)).

End driver.

(** ** A small codec and a run of the program *)

(** Values for the examples: JSON's literals, and a Go function value, which
    [json.Marshal] refuses. *)
Inductive jvalue := JNull | JBool (b : bool) | JFunc.

Definition strip_newline (s : string) : string :=
  match String.rev s with
  | String "010"%char r => String.rev r
  | _ => s
  end.

#[global] Instance jvalue_codec : Codec jvalue := {|
  Marshal v :=
    match v with
    | JNull => Ok "null"
    | JBool true => Ok "true"
    | JBool false => Ok "false"
    | JFunc => Err (CodecError "json: unsupported type: func()")
    end;
  Unmarshal s :=
    let t := strip_newline s in
    if String.eqb t "null" then Ok JNull
    else if String.eqb t "true" then Ok (JBool true)
    else if String.eqb t "false" then Ok (JBool false)
    else Err (CodecError "invalid character")
|}.

(** An empty disk, with the process started in [/]. *)
Definition empty_fs : filesystem := {| root := Dir ∅; cwd := [] |}.

(** The state in which [fs] is after [m]. *)
Definition after {A} (m : io A) (fs : filesystem) : filesystem := snd (m fs).

(** The driver and the disk after [New("./db", nil)] on an empty disk, and
    after one record has been written. *)
Definition db : Driver := fst (fst (New "./db" empty_fs)).
Definition fs_opened : filesystem := snd (New "./db" empty_fs).
Definition fs_john : filesystem :=
  after (Write db "user" "John" (JBool true)) fs_opened.

(** After a second record in the same collection. *)
Definition fs_two : filesystem :=
  after (Write db "user" "Paul" (JBool false)) fs_john.

(** The record [John] of the collection [user], written after a record of
    the collection [user/John]: the directory [db/user] then holds the
    directory [John] and the file [John.json]. *)
Definition fs_nested : filesystem :=
  after (Write db "user" "John" (JBool true))
    (after (Write db "user/John" "x" (JBool false)) fs_opened).



(** A driver whose root is the record file of [fs_john]. *)
Definition db_on_file : Driver := {| dir := "db/user/John.json" |}.

(** After one record written to the collection [user] under the resource
    name [../x]: the collection directory is there and the record file is
    next to it. *)
Definition fs_outside : filesystem :=
  after (Write db "user" "../x" (JBool true)) fs_opened.

(** The error of [json.Marshal] for a function value. *)
Definition unsupported : error := CodecError "json: unsupported type: func()".

(** The records of [fs_two], in the order of their [Write]s. *)
Definition two_records : list (string * jvalue) :=
  [("John", JBool true); ("Paul", JBool false)].

(** ** Replacing a directory in the tree *)

(** The tree [n] with [new] in the place of the object that [p] names; [n]
    itself when [p] names nothing. *)
Fixpoint replace (n : node) (p : list string) (new : node) : node :=
  match p with
  | [] => new
  | x :: p' =>
      match n with
      | File _ => n
      | Dir m =>
          match m !! x with
          | None => n
          | Some n1 => Dir (<[x := replace n1 p' new]> m)
          end
      end
  end.

(** ** The lock table *)

(** The [mutexes] of a [Driver], one [*sync.Mutex] for each collection. A
    pointer to a mutex is the number of its allocation: [&sync.Mutex{}]
    gives a pointer that no earlier allocation gave. The lock table is kept
    apart from [Driver] above, whose functions run in one thread and never
    wait for a lock. *)
Record LockTable := {
  mutexes : gmap string nat;
  allocated : nat
}.

(** [make(map[string]*sync.Mutex)] in [New]. *)
Definition new_table : LockTable := {| mutexes := ∅; allocated := 0 |}.

(** [Driver.getOrCreateNewMutex]. *)
Definition getOrCreateNewMutex (collection : string) (t : LockTable)
  : nat * LockTable :=
  match mutexes t !! collection with
  | Some m => (m, t)
  | None =>
      let m := allocated t in
      (m, {| mutexes := <[collection := m]> (mutexes t);
             allocated := S (allocated t) |})
  end.

(** The table after calls of [getOrCreateNewMutex] for the collections
    [cs], in that order. *)
Definition lock_calls (cs : list string) (t : LockTable) : LockTable :=
  fold_left (λ t c, snd (getOrCreateNewMutex c t)) cs t.

(** The pointers in the table were all allocated, each for one collection. *)
Definition table_ok (t : LockTable) : Prop :=
  (∀ c m, mutexes t !! c = Some m → m < allocated t)
  ∧ (∀ c1 c2 m, mutexes t !! c1 = Some m → mutexes t !! c2 = Some m → c1 = c2).

(** ** Kinds of errors *)

(** The errors of the guards at the head of [Write], [Read] and [ReadAll]. *)
Definition InvalidArgument (e : error) : bool :=
  match e with
  | Errorf msg =>
      String.eqb msg "collection is required"
      || String.eqb msg "resourse is required"
      || String.eqb msg "resource is required"
  | _ => false
  end.

(** * Properties *)

(** ** The sample run *)

Example Clean_dot_db : filepath.Clean "./db" = "db".
Proof. reflexivity. Qed.
Example Clean_dotdot : filepath.Clean "a/b/../../../c//d/./" = "../c/d".
Proof. reflexivity. Qed.
Example Clean_root : filepath.Clean "/../a/.." = "/".
Proof. reflexivity. Qed.
Example Join_empty_resource : filepath.Join ["db"; "user"; ""] = "db/user".
Proof. reflexivity. Qed.
Example Join_record : filepath.Join ["db/user"; "John.json"] = "db/user/John.json".
Proof. reflexivity. Qed.
Example Join_all_empty : filepath.Join [""; ""] = "".
Proof. reflexivity. Qed.

Example New_sample : New "./db" empty_fs = (({| dir := "db" |}, Ok ()), fs_opened).
Proof. reflexivity. Qed.

Example Write_sample :
  fst (Write db "user" "John" (JBool true) fs_opened) = Ok ()
  ∧ os.ReadFile "db/user/John.json" fs_john = Ok ("true" +:+ newline)
  ∧ os.ReadDir "db/user" fs_john = Ok ["John.json"].
Proof. by vm_compute. Qed.

(** ** Paths *)

Module path_facts.
Import filepath.

Lemma split_nonempty s : split s ≠ [].
Proof.
  destruct s as [|c s]; simpl; [done|].
  destruct (Ascii.eqb c "/"); [done|]. by destruct (split s).
Qed.

Lemma split_no_sep s : no_sep s = true → split s = [s].
Proof.
  induction s as [|c s IH]; simpl; [done|].
  destruct (Ascii.eqb c "/"); simpl; [done|]. intros Hs. by rewrite IH.
Qed.

Lemma split_app_sep a b : split (a +:+ "/" +:+ b) = (split a ++ split b)%list.
Proof.
  induction a as [|c a IH]; simpl; [done|].
  destruct (Ascii.eqb c "/"); simpl; [by rewrite IH|].
  rewrite IH. pose proof (split_nonempty a). by destruct (split a).
Qed.

Lemma app_last_snoc l x s : app_last (l ++ [x]) s = (l ++ [x +:+ s])%list.
Proof.
  induction l as [|y l IH]; simpl; [done|].
  rewrite IH. by destruct l.
Qed.

Lemma split_app_last a s :
  no_sep s = true → split (a +:+ s) = app_last (split a) s.
Proof.
  intros Hs. induction a as [|c a IH]; simpl.
  - by apply split_no_sep.
  - pose proof (split_nonempty a) as Hne.
    destruct (Ascii.eqb c "/"); simpl; rewrite IH.
    + by destruct (split a).
    + destruct (split a) as [|x [|y l]]; done.
Qed.

Lemma split_Forall_no_sep s : Forall (λ x, no_sep x = true) (split s).
Proof.
  induction s as [|c s IH]; simpl; [by constructor|].
  destruct (Ascii.eqb c "/") eqn:Ec; [by constructor|].
  pose proof (split_nonempty s) as Hne.
  destruct (split s) as [|x l]; [done|].
  inversion_clear IH. constructor; [|done]. simpl. by rewrite Ec.
Qed.

Lemma split_join l :
  l ≠ [] → Forall (λ x, no_sep x = true) l → split (join l) = l.
Proof.
  induction l as [|x l IH]; [done|]. intros _ Hl. inversion_clear Hl.
  destruct l as [|y l]; [by apply split_no_sep|].
  change (join (x :: y :: l)) with (x +:+ "/" +:+ join (y :: l)).
  rewrite split_app_sep, split_no_sep, IH; done.
Qed.

Lemma real_name_spec s :
  real_name s = true ↔ s ≠ "" ∧ s ≠ "." ∧ s ≠ ".." ∧ no_sep s = true.
Proof.
  unfold real_name.
  destruct (String.eqb_spec s ""), (String.eqb_spec s "."),
    (String.eqb_spec s ".."); simpl; split; try done.
  all: by intros (? & ? & ? & ?).
Qed.

Lemma clean_step_real rt out e :
  real_name e = true → clean_step rt out e = e :: out.
Proof.
  intros (H1 & H2 & H3 & _)%real_name_spec. unfold clean_step.
  destruct (String.eqb_spec e ""), (String.eqb_spec e "."),
    (String.eqb_spec e ".."); done.
Qed.

Lemma resolve_step_real stack e :
  real_name e = true → os.resolve_step stack e = e :: stack.
Proof.
  intros (H1 & H2 & H3 & _)%real_name_spec. unfold os.resolve_step.
  destruct (String.eqb_spec e ""), (String.eqb_spec e "."),
    (String.eqb_spec e ".."); done.
Qed.

Lemma append_eq_empty a b : a +:+ b = "" → a = "".
Proof. by destruct a. Qed.

Lemma no_sep_app a b :
  no_sep a = true → no_sep b = true → no_sep (a +:+ b) = true.
Proof.
  intros Ha Hb. induction a as [|c a IH]; simpl in *; [done|].
  apply andb_true_iff in Ha as [-> Ha]. simpl. by apply IH.
Qed.

Lemma real_name_app e s :
  real_name e = true → no_sep s = true → real_name (e +:+ s) = true.
Proof.
  intros (H1 & H2 & H3 & H4)%real_name_spec Hs. apply real_name_spec.
  split; [|split; [|split]].
  - by intros ->%append_eq_empty.
  - destruct e as [|c e]; [done|]. simpl.
    intros [= -> ->%append_eq_empty]. done.
  - destruct e as [|c e]; [done|]. simpl. intros [= -> E].
    destruct e as [|c' e]; [done|]. simpl in E.
    injection E as -> ->%append_eq_empty. done.
  - by apply no_sep_app.
Qed.

Lemma clean_step_kept rt out e :
  Forall kept out → Forall kept (clean_step rt out e).
Proof.
  intros Hout. unfold clean_step.
  destruct (String.eqb_spec e ""); [done|].
  destruct (String.eqb_spec e "."); [done|]. simpl.
  destruct (String.eqb_spec e "..") as [->|].
  - destruct out as [|top out'].
    + destruct rt; [done|]. constructor; [by split|done].
    + destruct (String.eqb top "..").
      * constructor; [by split|done].
      * by inversion_clear Hout.
  - constructor; [by split|done].
Qed.

Lemma clean_fold_kept rt comps out :
  Forall kept out → Forall kept (fold_left (clean_step rt) comps out).
Proof.
  revert out. induction comps as [|e comps IH]; intros out Hout; [done|].
  simpl. by apply IH, clean_step_kept.
Qed.

Lemma clean_step_no_sep rt out e :
  no_sep e = true → Forall (λ x, no_sep x = true) out →
  Forall (λ x, no_sep x = true) (clean_step rt out e).
Proof.
  intros He Hout. unfold clean_step.
  destruct (_ || _); [done|].
  destruct (String.eqb e "..").
  - destruct out as [|top out'].
    + destruct rt; [done|]. by constructor.
    + destruct (String.eqb top "..").
      * by constructor.
      * by inversion_clear Hout.
  - by constructor.
Qed.

Lemma clean_fold_no_sep rt comps out :
  Forall (λ x, no_sep x = true) comps → Forall (λ x, no_sep x = true) out →
  Forall (λ x, no_sep x = true) (fold_left (clean_step rt) comps out).
Proof.
  revert out. induction comps as [|e comps IH]; intros out Hc Hout; [done|].
  inversion_clear Hc. simpl. by apply IH, clean_step_no_sep.
Qed.

Lemma resolve_step_skip stack e :
  e = "" ∨ e = "." → os.resolve_step stack e = stack.
Proof. by intros [-> | ->]. Qed.

Lemma resolve_step_kept stack e :
  kept e → e ≠ ".." → os.resolve_step stack e = e :: stack.
Proof.
  intros [H1 H2] H3. unfold os.resolve_step.
  destruct (String.eqb_spec e ""), (String.eqb_spec e "."),
    (String.eqb_spec e ".."); done.
Qed.

Lemma unwind_clean_step rt init out e :
  (rt = true → init = []) → Forall kept out →
  unwind init (clean_step rt out e) = os.resolve_step (unwind init out) e.
Proof.
  intros Hrt Hout. unfold clean_step.
  destruct (String.eqb_spec e "") as [->|]; [done|].
  destruct (String.eqb_spec e ".") as [->|]; [done|]. simpl.
  destruct (String.eqb_spec e "..") as [->|].
  - destruct out as [|top out'].
    + destruct rt; [|done]. by rewrite Hrt.
    + destruct (String.eqb_spec top ".."); [done|].
      inversion_clear Hout as [|?? Ht _]. simpl.
      by rewrite (resolve_step_kept _ top).
  - simpl. done.
Qed.

Lemma unwind_clean_fold rt init comps out :
  (rt = true → init = []) → Forall kept out →
  unwind init (fold_left (clean_step rt) comps out)
  = fold_left os.resolve_step comps (unwind init out).
Proof.
  intros Hrt. revert out.
  induction comps as [|e comps IH]; intros out Hout; [done|].
  simpl. rewrite IH by by apply clean_step_kept.
  by rewrite unwind_clean_step.
Qed.

Lemma unwind_rev init stack :
  fold_left os.resolve_step (rev stack) init = unwind init stack.
Proof.
  induction stack as [|e stack IH]; [done|].
  simpl. by rewrite fold_left_app, IH.
Qed.

Lemma rooted_app a b : a ≠ "" → rooted (a +:+ b) = rooted a.
Proof. by destruct a. Qed.

Lemma rooted_kept_no_sep x y :
  kept x → no_sep x = true → rooted (x +:+ y) = false.
Proof.
  intros [Hx _] Hn. destruct x as [|c x]; [done|]. simpl in *.
  by destruct (Ascii.eqb c "/").
Qed.

Lemma append_cons c s t : String c s +:+ t = String c (s +:+ t).
Proof. done. Qed.

Lemma append_empty_r s : s +:+ "" = s.
Proof. induction s as [|c s IH]; [done|]. by rewrite append_cons, IH. Qed.

Lemma join_cons x l : ∃ y, join (x :: l) = x +:+ y.
Proof.
  destruct l as [|z l]; simpl; [|eauto].
  exists "". by rewrite append_empty_r.
Qed.

Lemma clean_stack_kept path : Forall kept (clean_stack path).
Proof. by apply clean_fold_kept. Qed.

Lemma clean_stack_no_sep path :
  Forall (λ x, no_sep x = true) (clean_stack path).
Proof. apply clean_fold_no_sep; [apply split_Forall_no_sep|done]. Qed.

Lemma Forall_rev_1 {A} (P : A → Prop) (l : list A) :
  Forall P l → Forall P (rev l).
Proof. apply List.Forall_rev. Qed.

(** The elements of a cleaned path. *)
Lemma split_Clean path :
  ∃ pre, split (Clean path) = (pre ++ rev (clean_stack path))%list
         ∧ Forall (λ e, e = "" ∨ e = ".") pre
         ∧ (clean_stack path ≠ [] → pre = [] ∨ pre = [""]).
Proof.
  unfold Clean. destruct (String.eqb_spec path "") as [->|Hne].
  { exists ["."]. repeat split; [by repeat constructor; right|done]. }
  pose proof (clean_stack_kept path) as Hk%Forall_rev_1.
  pose proof (clean_stack_no_sep path) as Hn%Forall_rev_1.
  destruct (rooted path).
  - change ("/" +:+ ?x) with ("" +:+ "/" +:+ x). rewrite split_app_sep.
    destruct (rev (clean_stack path)) as [|x l] eqn:Er.
    + exists [""; ""]. split; [done|]. split; [by repeat constructor; left|].
      intros Hs. apply (f_equal (@rev _)) in Er.
      rewrite rev_involutive in Er. done.
    + exists [""]. rewrite split_join by done.
      split; [done|]. split; [by repeat constructor; left|]. by right.
  - destruct (rev (clean_stack path)) as [|x l] eqn:Er.
    + exists ["."]. split; [done|]. split; [by repeat constructor; right|].
      intros Hs. apply (f_equal (@rev _)) in Er.
      rewrite rev_involutive in Er. done.
    + exists []. rewrite split_join by done. split; [done|].
      split; [done|]. by left.
Qed.

Lemma Clean_nonempty path : Clean path ≠ "".
Proof.
  intros E. pose proof (split_Clean path) as (pre & Hs & _).
  unfold Clean in E. destruct (String.eqb path ""); [done|].
  destruct (rooted path); [done|].
  pose proof (clean_stack_kept path) as Hk%Forall_rev_1.
  destruct (rev (clean_stack path)) as [|x l]; [done|].
  destruct (join_cons x l) as [y Hy]. rewrite Hy in E.
  apply append_eq_empty in E as ->. by inversion_clear Hk as [|?? []].
Qed.

Lemma rooted_Clean path : rooted (Clean path) = rooted path.
Proof.
  unfold Clean. destruct (String.eqb_spec path "") as [->|Hne]; [done|].
  destruct (rooted path) eqn:Hr; [done|].
  pose proof (clean_stack_kept path) as Hk%Forall_rev_1.
  pose proof (clean_stack_no_sep path) as Hn%Forall_rev_1.
  destruct (rev (clean_stack path)) as [|x l]; [done|].
  destruct (join_cons x l) as [y ->].
  inversion_clear Hk. inversion_clear Hn. by apply rooted_kept_no_sep.
Qed.

Lemma fold_resolve_skip pre init :
  Forall (λ e, e = "" ∨ e = ".") pre →
  fold_left os.resolve_step pre init = init.
Proof.
  induction 1 as [|e pre He _ IH]; [done|].
  simpl. by rewrite resolve_step_skip.
Qed.

(** Cleaning a path does not change what it denotes. *)
Lemma resolve_Clean wd path :
  os.resolve wd (Clean path) = os.resolve wd path.
Proof.
  unfold os.resolve. rewrite rooted_Clean. f_equal.
  destruct (split_Clean path) as (pre & -> & Hpre & _).
  rewrite fold_left_app, (fold_resolve_skip pre) by done.
  rewrite unwind_rev. unfold clean_stack.
  rewrite unwind_clean_fold; [done| |done].
  by intros ->.
Qed.

Lemma resolve_unwind wd path :
  rev (unwind (start wd path) (clean_stack path)) = os.resolve wd path.
Proof.
  unfold os.resolve, clean_stack, start. f_equal.
  rewrite unwind_clean_fold; [done| |done]. by intros ->.
Qed.

(** A cleaned path whose last element is a name, with [s] appended: the
    entry [name +:+ s] of the same directory. *)
Lemma resolve_Clean_top wd path name st s :
  clean_stack path = name :: st →
  real_name name = true → no_sep s = true →
  os.resolve wd (Clean path +:+ s)
  = (rev (unwind (start wd path) st) ++ [name +:+ s])%list.
Proof.
  intros Hst Hname Hs. unfold os.resolve.
  rewrite rooted_app by apply Clean_nonempty. rewrite rooted_Clean.
  fold (start wd path). rewrite split_app_last by done.
  destruct (split_Clean path) as (pre & -> & Hpre & _).
  rewrite Hst. simpl rev. rewrite app_assoc, app_last_snoc.
  rewrite !fold_left_app, (fold_resolve_skip pre) by done.
  rewrite unwind_rev. simpl.
  by rewrite resolve_step_real by by apply real_name_app.
Qed.

Lemma clean_stack_entry X name :
  X ≠ "" → real_name name = true →
  clean_stack (X +:+ "/" +:+ name) = name :: clean_stack X.
Proof.
  intros HX Hname. unfold clean_stack.
  rewrite rooted_app, split_app_sep, fold_left_app by done.
  apply real_name_spec in Hname as Hn. destruct Hn as (_ & _ & _ & Hn).
  rewrite (split_no_sep name) by done. simpl.
  by rewrite clean_step_real.
Qed.

(** [name +:+ s] in the directory [X], through [Clean]. *)
Lemma resolve_entry wd X name s :
  X ≠ "" → real_name name = true → no_sep s = true →
  os.resolve wd (Clean (X +:+ "/" +:+ name) +:+ s)
  = (os.resolve wd X ++ [name +:+ s])%list.
Proof.
  intros HX Hname Hs.
  rewrite (resolve_Clean_top wd _ name (clean_stack X) s);
    [|by apply clean_stack_entry|done|done].
  unfold start. rewrite rooted_app by done. fold (start wd X).
  by rewrite resolve_unwind.
Qed.

Lemma ends_slash_dot_split p :
  os.ends_slash_dot p = true → ∃ x l, split p = (x :: l ++ ["."])%list.
Proof.
  induction p as [|c p IH]; [done|].
  change (os.ends_slash_dot (String c p))
    with (String.eqb (String c p) "/." || os.ends_slash_dot p).
  intros [E|E]%orb_true_iff.
  - apply String.eqb_eq in E as ->. by exists "", [].
  - destruct (IH E) as (x & l & Hs). simpl. rewrite Hs.
    destruct (Ascii.eqb c "/").
    + by exists "", (x :: l).
    + by exists (String c x), l.
Qed.

(** A cleaned path that ends in a name does not end in [.]. *)
Lemma endsWithDot_Clean_top path name st :
  clean_stack path = name :: st → real_name name = true →
  os.endsWithDot (Clean path) = false.
Proof.
  intros Hst Hname. apply real_name_spec in Hname as Hn.
  destruct Hn as (_ & Hdot & _ & _).
  destruct (split_Clean path) as (pre & Hsp & _ & _).
  rewrite Hst in Hsp. simpl in Hsp. rewrite app_assoc in Hsp.
  apply not_true_is_false. unfold os.endsWithDot.
  intros [E|E]%orb_true_iff.
  - apply String.eqb_eq in E. rewrite E in Hsp.
    change (split ".") with ([] ++ ["."])%list in Hsp.
    by apply app_inj_tail in Hsp as [_ <-].
  - apply ends_slash_dot_split in E as (x & l & E). rewrite E in Hsp.
    rewrite app_comm_cons in Hsp. by apply app_inj_tail in Hsp as [_ <-].
Qed.

Lemma Join_two a b : a ≠ "" → Join [a; b] = Clean (a +:+ "/" +:+ b).
Proof. intros Ha. simpl. by destruct (String.eqb_spec a ""). Qed.

End path_facts.

(** ** The directory tree *)

Section tree.
Implicit Types (n : node) (p q : list string) (m : gmap string node).

Lemma walk_app n p q :
  os.walk n (p ++ q) = n' ← os.walk n p; os.walk n' q.
Proof.
  revert n. induction p as [|x p IH]; intros n; simpl; [done|].
  destruct n as [b|m]; [done|]. destruct (m !! x); [apply IH|done].
Qed.

Lemma walk_empty_dir p :
  os.walk (Dir ∅) p = Ok (Dir ∅) ∨ os.walk (Dir ∅) p = Err ENOENT.
Proof. destruct p as [|x p]; simpl; [by left|right]. by rewrite lookup_empty. Qed.

Lemma modify_nil n f : is_Ok (os.modify n [] f) = false.
Proof. by destruct n. Qed.

(** What [modify] puts at [p] is found there afterwards. *)
Lemma modify_walk_put n p f n' x :
  (∀ o o', f o = Ok o' → o' = Some x) →
  os.modify n p f = Ok n' → os.walk n' p = Ok x.
Proof.
  intros Hf. revert n n'.
  induction p as [|y p IH]; intros n n' Hm.
  - pose proof (modify_nil n f) as Hn. by rewrite Hm in Hn.
  - destruct n as [b|m]; [done|]. simpl in Hm. destruct p as [|z p].
    + destruct (f (m !! y)) as [o|e] eqn:Ef; [|done].
      apply Hf in Ef as ->. simpl in Hm. injection Hm as <-.
      simpl. by rewrite lookup_insert_eq.
    + destruct (m !! y) as [n1|]; [|done].
      destruct (os.modify n1 (z :: p) f) as [n2|e] eqn:E2; [|done].
      simpl in Hm. injection Hm as <-.
      change (os.walk (Dir (<[y:=n2]> m)) (y :: z :: p))
        with (match <[y:=n2]> m !! y with
              | None => Err ENOENT
              | Some n' => os.walk n' (z :: p)
              end).
      rewrite lookup_insert_eq. by apply (IH n1).
Qed.

(** [modify] on the entry [x] of the directory at [dp]: the directory has
    the entry replaced, when [f] agrees. *)
Lemma modify_snoc_inv n dp x f n' md :
  os.walk n dp = Ok (Dir md) →
  os.modify n (dp ++ [x]) f = Ok n' →
  ∃ o, f (md !! x) = Ok o ∧ os.walk n' dp = Ok (Dir (os.set_entry x o md)).
Proof.
  revert n n'. induction dp as [|y dp IH]; intros n n' Hw Hm.
  - simpl in Hw. injection Hw as ->. simpl in Hm.
    destruct (f (md !! x)) as [o|e]; [|done].
    simpl in Hm. injection Hm as <-. by exists o.
  - destruct n as [b|m]; [done|]. simpl in Hw.
    destruct (m !! y) as [n1|] eqn:Ey; [|done].
    simpl in Hm. destruct (dp ++ [x])%list as [|z r] eqn:Er.
    { by destruct dp. }
    rewrite Ey in Hm.
    destruct (os.modify n1 (z :: r) f) as [n2|e] eqn:E2; [|done].
    simpl in Hm. injection Hm as <-.
    destruct (IH _ _ Hw E2) as (o & Ho & Hw2). exists o. split; [done|].
    simpl. by rewrite lookup_insert_eq.
Qed.

Lemma modify_snoc_ok n dp x f md o :
  os.walk n dp = Ok (Dir md) →
  f (md !! x) = Ok o →
  ∃ n', os.modify n (dp ++ [x]) f = Ok n'
        ∧ os.walk n' dp = Ok (Dir (os.set_entry x o md)).
Proof.
  intros Hw Hf. revert n Hw. induction dp as [|y dp IH]; intros n Hw.
  - simpl in Hw. injection Hw as ->. simpl. rewrite Hf. simpl. eauto.
  - destruct n as [b|m]; [done|]. simpl in Hw.
    destruct (m !! y) as [n1|] eqn:Ey; [|done].
    destruct (IH _ Hw) as (n2 & Hm & Hw2).
    exists (Dir (<[y:=n2]> m)). split.
    + simpl. destruct (dp ++ [x])%list as [|z r] eqn:Er; [by destruct dp|].
      rewrite Ey, Hm. done.
    + simpl. by rewrite lookup_insert_eq.
Qed.

(** [mkdir_all] ends at a directory. *)
Lemma mkdir_all_walk n p n' :
  os.mkdir_all n p = Ok n' → ∃ m, os.walk n' p = Ok (Dir m).
Proof.
  revert n n'. induction p as [|x p IH]; intros n n' Hm.
  - destruct n as [b|m]; [done|]. injection Hm as <-. by exists m.
  - destruct n as [b|m]; [done|]. simpl in Hm.
    destruct (os.mkdir_all (default (Dir ∅) (m !! x)) p) as [n1|e] eqn:E1;
      [|done].
    simpl in Hm. injection Hm as <-. simpl. rewrite lookup_insert_eq. eauto.
Qed.

(** [mkdir_all] changes nothing when the directory exists. *)
Lemma mkdir_all_exists n p m :
  os.walk n p = Ok (Dir m) → os.mkdir_all n p = Ok n.
Proof.
  revert n. induction p as [|x p IH]; intros n Hw.
  - simpl in Hw. by injection Hw as ->.
  - destruct n as [b|m0]; [done|]. simpl in Hw. simpl.
    destruct (m0 !! x) as [n1|] eqn:Ex; [|done]. simpl.
    rewrite (IH _ Hw). simpl. by rewrite insert_id.
Qed.

Lemma mkdir_all_empty p n' :
  os.mkdir_all (Dir ∅) p = Ok n' → os.walk n' p = Ok (Dir ∅).
Proof.
  revert n'. induction p as [|x p IH]; intros n' Hm.
  - by injection Hm as <-.
  - simpl in Hm. rewrite lookup_empty in Hm. simpl in Hm.
    destruct (os.mkdir_all (Dir ∅) p) as [n1|e] eqn:E1; [|done].
    simpl in Hm. injection Hm as <-. simpl. rewrite lookup_insert_eq. eauto.
Qed.

(** A directory that [mkdir_all] had to create is empty. *)
Lemma mkdir_all_fresh n p n' :
  os.walk n p = Err ENOENT →
  os.mkdir_all n p = Ok n' → os.walk n' p = Ok (Dir ∅).
Proof.
  revert n n'. induction p as [|x p IH]; intros n n' Hw Hm; [done|].
  destruct n as [b|m]; [done|]. simpl in Hw, Hm.
  destruct (os.mkdir_all (default (Dir ∅) (m !! x)) p) as [n1|e] eqn:E1;
    [|done].
  simpl in Hm. injection Hm as <-. simpl. rewrite lookup_insert_eq.
  destruct (m !! x) as [n0|]; simpl in E1.
  - by apply (IH n0).
  - by apply mkdir_all_empty.
Qed.

(** [mkdir_all] neither creates nor changes a regular file. *)
Lemma mkdir_all_files n p n' :
  os.mkdir_all n p = Ok n' →
  ∀ q b, os.walk n' q = Ok (File b) ↔ os.walk n q = Ok (File b).
Proof.
  revert n n'. induction p as [|x p IH]; intros n n' Hm q b.
  - destruct n as [b0|m]; [done|]. by injection Hm as <-.
  - destruct n as [b0|m]; [done|]. simpl in Hm.
    destruct (os.mkdir_all (default (Dir ∅) (m !! x)) p) as [n1|e] eqn:E1;
      [|done].
    simpl in Hm. injection Hm as <-.
    destruct q as [|y q]; [done|]. simpl.
    destruct (decide (x = y)) as [->|Hne].
    + rewrite lookup_insert_eq. rewrite (IH _ _ E1 q b).
      destruct (m !! y) as [n0|]; simpl; [done|].
      destruct (walk_empty_dir q) as [-> | ->]; done.
    + by rewrite lookup_insert_ne.
Qed.

End tree.

(** ** What a call leaves of the file system *)

Lemma Stat_err_ReadFile path fs e :
  os.Stat path fs = Err e → os.ReadFile path fs = Err e.
Proof.
  unfold os.Stat, os.ReadFile. destruct (os.locate fs path) as [p|e0]; simpl.
  - destruct (os.walk (root fs) p); simpl; congruence.
  - congruence.
Qed.

Lemma Stat_nonempty_path path fs e :
  os.Stat path fs = Err e → path ≠ "" → os.resolve (cwd fs) path ≠ [].
Proof.
  unfold os.Stat, os.locate. intros Hs Hne Hr.
  destruct (String.eqb_spec path ""); [done|]. simpl in Hs.
  rewrite Hr in Hs. done.
Qed.

Lemma with_root_same fs : os.with_root fs (Ok (root fs)) = (Ok (), fs).
Proof. by destruct fs. Qed.

(** Removing an entry that is not there changes nothing. *)
Lemma modify_remove_missing n p :
  os.walk n p = Err ENOENT →
  os.modify n p (λ _, Ok None) = Ok n
  ∨ os.modify n p (λ _, Ok None) = Err ENOENT.
Proof.
  revert n. induction p as [|x p IH]; intros n Hw; [done|].
  destruct n as [b|m]; [done|]. simpl in Hw. simpl.
  destruct p as [|y p].
  - left. simpl. destruct (m !! x) eqn:Ex; [done|]. by rewrite delete_id.
  - destruct (m !! x) as [n1|] eqn:Ex; [|by right].
    destruct (IH _ Hw) as [-> | ->]; [left|by right].
    simpl. by rewrite insert_id.
Qed.

(** [os.MkdirAll] leaves the regular files as they are, also when it fails. *)
Lemma MkdirAll_files path fs :
  ∀ p b, os.ReadFile p (snd (os.MkdirAll path fs)) = Ok b
         ↔ os.ReadFile p fs = Ok b.
Proof.
  intros q b. unfold os.MkdirAll.
  destruct (os.locate fs path) as [p|e]; simpl; [|done].
  destruct (os.mkdir_all (root fs) p) as [n'|e] eqn:Em; simpl; [|done].
  unfold os.ReadFile, os.locate. simpl.
  destruct (String.eqb q ""); simpl; [done|].
  pose proof (mkdir_all_files _ _ _ Em (os.resolve (cwd fs) q)) as Hf.
  destruct (os.walk n' _) as [[b1|m1]|e1] eqn:E1;
    destruct (os.walk (root fs) _) as [[b2|m2]|e2] eqn:E2; simpl;
    try done.
  - destruct (Hf b1) as [Hb _]. specialize (Hb eq_refl). by injection Hb as ->.
  - destruct (Hf b1) as [Hb _]. by specialize (Hb eq_refl).
  - destruct (Hf b1) as [Hb _]. by specialize (Hb eq_refl).
  - destruct (Hf b2) as [_ Hb]. by specialize (Hb eq_refl).
  - destruct (Hf b2) as [_ Hb]. by specialize (Hb eq_refl).
Qed.

(** After a successful [os.MkdirAll] the path is a directory. *)
Lemma MkdirAll_Stat path fs fs' :
  os.MkdirAll path fs = (Ok (), fs') → os.Stat path fs' = Ok IsDir.
Proof.
  unfold os.MkdirAll, os.Stat, os.locate. simpl.
  destruct (String.eqb path ""); simpl; [done|].
  destruct (os.mkdir_all _ _) as [n'|e] eqn:Em; simpl; [|done].
  intros [= <-]. simpl. destruct (mkdir_all_walk _ _ _ Em) as [m ->]. done.
Qed.

(** Suffixes of a path with the extension appended. *)
Lemma append_json_not_dot s : String.eqb (s +:+ ".json") "." = false.
Proof. destruct s as [|c [|c' s]]; simpl; [done| |]; by destruct (Ascii.eqb c "."). Qed.

Lemma append_json_nonempty s : String.eqb (s +:+ ".json") "" = false.
Proof. by destruct s. Qed.

Lemma append_json_not_slash_dot s : String.eqb (s +:+ ".json") "/." = false.
Proof.
  destruct s as [|c [|c' [|c'' s]]]; simpl; try done;
    destruct (Ascii.eqb c "/"); try done; by destruct (Ascii.eqb c' ".").
Qed.

Lemma endsWithDot_json s : os.endsWithDot (s +:+ ".json") = false.
Proof.
  unfold os.endsWithDot. rewrite append_json_not_dot. simpl.
  induction s as [|c s IH]; [done|].
  change (os.ends_slash_dot (String c s +:+ ".json"))
    with (String.eqb (String c s +:+ ".json") "/."
          || os.ends_slash_dot (s +:+ ".json")).
  by rewrite append_json_not_slash_dot, IH.
Qed.

(** ** Empty keys *)

Section claims.
Context {V : Type} `{Codec V}.
Implicit Types (d : Driver) (fs : filesystem) (v : V).

(** C4, amended: [Write] and [Read] with an empty collection or resource key,
    and [ReadAll] with an empty collection key, fail with the error of the
    guard and leave the file system as it was. [Delete] has no such guard
    and is not part of the statement. *)
Theorem empty_key_rejected d c r v fs :
  (∃ e, Write d "" r v fs = (Err e, fs) ∧ InvalidArgument e = true)
  ∧ (∃ e, Write d c "" v fs = (Err e, fs) ∧ InvalidArgument e = true)
  ∧ (∃ e, Read (V:=V) d "" r fs = (Err e, fs) ∧ InvalidArgument e = true)
  ∧ (∃ e, Read (V:=V) d c "" fs = (Err e, fs) ∧ InvalidArgument e = true)
  ∧ (∃ e, ReadAll d "" fs = (Err e, fs) ∧ InvalidArgument e = true).
Proof.
  repeat split.
  - by eexists.
  - unfold Write. destruct (String.eqb c ""); by eexists.
  - by eexists.
  - unfold Read. destruct (String.eqb c ""); by eexists.
  - by eexists.
Qed.

(** ** Delete *)

(** C6: when [os.Stat] finds neither the path of the resource nor the path
    with [.json] appended, [Delete] fails with the error that names the path
    and changes nothing in the file system. *)
Theorem Delete_missing d c r fs :
  let path := filepath.Join [dir d; c; r] in
  is_Ok (os.Stat path fs) = false →
  is_Ok (os.Stat (path +:+ ".json") fs) = false →
  Delete d c r fs = (Err (Errorf (path +:+ " does not exist")), fs).
Proof.
  intros path H1 H2. unfold Delete. fold path.
  unfold mbind, io_bind, try, stat.
  destruct (os.Stat path fs) as [i|e]; [done|].
  destruct (IsNotExist e); [|done].
  by destruct (os.Stat (path +:+ ".json") fs).
Qed.

(** C10: for a resource name with the extension, [r.json], that is a regular
    file of the collection while [r.json.json] does not exist, [Delete]
    returns no error and the file system is as before: the removal went to
    the path with [.json] appended once more. *)
Theorem Delete_with_extension_removes_nothing d c r fs :
  let path := filepath.Join [dir d; c; r +:+ ".json"] in
  os.Stat path fs = Ok IsRegular →
  os.Stat (path +:+ ".json") fs = Err ENOENT →
  Delete d c (r +:+ ".json") fs = (Ok (), fs).
Proof.
  intros path H1 H2. unfold Delete. fold path.
  unfold mbind, io_bind, try, stat. rewrite H1.
  unfold os.RemoveAll.
  rewrite append_json_nonempty, endsWithDot_json.
  pose proof (Stat_nonempty_path _ _ _ H2) as Hne.
  destruct (os.resolve (cwd fs) (path +:+ ".json")) as [|x p] eqn:Er.
  { exfalso. apply Hne; [|done]. intros E.
    pose proof (append_json_nonempty path) as Hn. by rewrite E in Hn. }
  assert (os.walk (root fs) (x :: p) = Err ENOENT) as Hw.
  { revert H2. unfold os.Stat, os.locate.
    rewrite append_json_nonempty. cbn [mbind result_bind]. rewrite Er.
    destruct (os.walk (root fs) (x :: p)); cbn [mbind result_bind];
      congruence. }
  destruct (modify_remove_missing _ _ Hw) as [-> | ->]; [|done].
  by destruct fs.
Qed.

(** ** Opening the store *)

(** C9: when [os.Stat] finds the cleaned root path, [New] returns the driver
    without error and leaves the file system as it is; so a second [New] on
    the path of a first one that succeeded succeeds too, with the same driver
    and no change; and no [New] creates, changes or removes a regular file. *)
Theorem New_twice path fs :
  (is_Ok (os.Stat (filepath.Clean path) fs) = true →
   New path fs = (({| dir := filepath.Clean path |}, Ok ()), fs))
  ∧ (∀ d fs1, New path fs = ((d, Ok ()), fs1) →
              New path fs1 = ((d, Ok ()), fs1))
  ∧ (∀ p b, os.ReadFile p (snd (New path fs)) = Ok b
            ↔ os.ReadFile p fs = Ok b).
Proof.
  unfold New. split; [|split].
  - by destruct (os.Stat (filepath.Clean path) fs).
  - intros d fs1.
    destruct (os.Stat (filepath.Clean path) fs) as [i|e] eqn:Es.
    + intros [= <- <-]. by rewrite Es.
    + destruct (os.MkdirAll (filepath.Clean path) fs) as [r fs'] eqn:Em.
      intros [= <- -> ->]. by rewrite (MkdirAll_Stat _ _ _ Em).
  - intros p b.
    destruct (os.Stat (filepath.Clean path) fs) as [i|e]; [done|].
    pose proof (MkdirAll_files (filepath.Clean path) fs p b) as Hf.
    by destruct (os.MkdirAll (filepath.Clean path) fs).
Qed.

(** ** Write *)

(** [Write] past its guards, call by call. *)
Lemma Write_steps d c r v fs :
  c ≠ "" → r ≠ "" →
  let dir := filepath.Join [dir d; c] in
  let fnlPath := filepath.Join [dir; r +:+ ".json"] in
  let tmpPath := fnlPath +:+ ".tmp" in
  Write d c r v fs =
    match os.MkdirAll dir fs with
    | (Err e, fs1) => (Err e, fs1)
    | (Ok _, fs1) =>
        match Marshal v with
        | Err e => (Err e, fs1)
        | Ok b =>
            match os.WriteFile tmpPath (b +:+ newline) fs1 with
            | (Err e, fs2) => (Err e, fs2)
            | (Ok _, fs2) => os.Rename tmpPath fnlPath fs2
            end
        end
    end.
Proof.
  intros Hc Hr. unfold Write.
  destruct (String.eqb_spec c ""); [done|].
  destruct (String.eqb_spec r ""); [done|].
  unfold mbind, io_bind, check. cbv zeta.
  destruct (os.MkdirAll _ fs) as [[[]|e1] fs1]; [|done].
  destruct (Marshal v) as [b|e1]; [|done].
  by destruct (os.WriteFile _ _ fs1) as [[[]|e2] fs2].
Qed.

Lemma MkdirAll_err path fs e fs' :
  os.MkdirAll path fs = (Err e, fs') → fs' = fs.
Proof.
  unfold os.MkdirAll, os.with_root. by destruct (_ ≫= _); intros [= <-].
Qed.

(** C3, amended: when encoding fails, [Write] has already called
    [os.MkdirAll] on the collection directory. It returns the error of
    [os.MkdirAll] when that call failed and the encoding error otherwise,
    and the file system is the one [os.MkdirAll] left: after a call that
    succeeded, the collection directory exists. No regular file is created,
    changed or removed. *)
Theorem Write_encoding_failure d c r v fs e :
  c ≠ "" → r ≠ "" →
  Marshal v = Err e →
  let dir := filepath.Join [dir d; c] in
  Write d c r v fs
  = (Err (match fst (os.MkdirAll dir fs) with Ok _ => e | Err e' => e' end),
     snd (os.MkdirAll dir fs))
  ∧ (is_Ok (fst (os.MkdirAll dir fs)) = true →
     os.Stat dir (after (Write d c r v) fs) = Ok IsDir)
  ∧ (∀ p b, os.ReadFile p (after (Write d c r v) fs) = Ok b
            ↔ os.ReadFile p fs = Ok b).
Proof.
  intros Hc Hr Hm dir0. unfold after. rewrite (Write_steps _ _ _ _ _ Hc Hr).
  fold dir0. rewrite Hm.
  pose proof (MkdirAll_files dir0 fs) as Hf.
  destruct (os.MkdirAll dir0 fs) as [[[]|e1] fs1] eqn:Emk.
  - split; [done|]. split; [|done]. intros _. by apply MkdirAll_Stat in Emk.
  - split; [done|]. by split.
Qed.

Lemma WriteFile_ok path data fs fs' :
  os.WriteFile path data fs = (Ok (), fs') →
  cwd fs' = cwd fs
  ∧ os.walk (root fs') (os.resolve (cwd fs) path) = Ok (File data).
Proof.
  unfold os.WriteFile, os.locate.
  destruct (String.eqb path ""); [done|]. cbn [mbind result_bind].
  destruct (os.resolve (cwd fs) path) as [|x p]; [done|].
  destruct (os.modify _ _ _) as [n'|e] eqn:Em; [|done].
  intros [= <-]. split; [done|]. simpl root.
  eapply modify_walk_put; [|exact Em].
  intros o o'. simpl. by destruct o as [[]|]; intros [= <-].
Qed.

(** A regular file that [os.Rename] moved is read under the new name. *)
Lemma Rename_file oldname newname data fs fs' :
  os.walk (root fs) (os.resolve (cwd fs) oldname) = Ok (File data) →
  os.Rename oldname newname fs = (Ok (), fs') →
  os.ReadFile newname fs' = Ok data.
Proof.
  intros Hw. unfold os.Rename, os.ReadFile, os.locate.
  destruct (String.eqb oldname ""); [done|].
  destruct (String.eqb newname ""); [done|].
  cbn [mbind result_bind]. rewrite Hw. cbn [mbind result_bind].
  generalize dependent (os.resolve (cwd fs) oldname). intros po Hw.
  remember (os.resolve (cwd fs) newname) as pn eqn:Epn.
  case_bool_decide as Hpp.
  - subst po. rewrite Hw. intros [= <-]. simpl. rewrite <- Epn. by rewrite Hw.
  - destruct (os.walk (root fs) pn) as [[b|m]|e] eqn:Et; [|done|].
    all: case_bool_decide; [done|].
    all: destruct (os.modify (root fs) po _) as [r1|e1]; [|done].
    all: cbn [mbind result_bind].
    all: destruct (os.modify r1 pn _) as [r2|e2] eqn:E2; [|done].
    all: intros [= <-]; simpl; rewrite <- Epn.
    all: assert (os.walk r2 pn = Ok (File data)) as ->; [|done].
    all: eapply modify_walk_put; [|exact E2]; by intros o o' [= <-].
Qed.

(** C8: after a [Write] that returned no error, the record file holds the
    encoding of the value followed by one byte, the line feed (byte 10), and
    nothing else. *)
Theorem Write_stores_encoding d c r v fs fs' :
  Write d c r v fs = (Ok (), fs') →
  ∃ b, Marshal v = Ok b
       ∧ os.ReadFile
           (filepath.Join [filepath.Join [dir d; c]; r +:+ ".json"]) fs'
         = Ok (b +:+ String "010"%char EmptyString).
Proof.
  intros Hw. change (String "010"%char EmptyString) with newline.
  assert (c ≠ "") as Hc.
  { intros ->. by revert Hw. }
  assert (r ≠ "") as Hr.
  { intros ->. revert Hw. unfold Write. by destruct (String.eqb c ""). }
  rewrite (Write_steps _ _ _ _ _ Hc Hr) in Hw.
  destruct (os.MkdirAll _ fs) as [[[]|e1] fs1]; [|done].
  destruct (Marshal v) as [b|e1]; [|done]. exists b. split; [done|].
  destruct (os.WriteFile _ _ fs1) as [[[]|e2] fs2] eqn:Ewf; [|done].
  destruct (WriteFile_ok _ _ _ _ Ewf) as [Hcwd Hf]. rewrite <- Hcwd in Hf.
  by apply (Rename_file _ _ _ _ _ Hf Hw).
Qed.

(** ** Paths of the driver *)

Lemma append_assoc a b c : (a +:+ b) +:+ c = a +:+ b +:+ c.
Proof.
  induction a as [|x a IH]; [done|].
  by rewrite !path_facts.append_cons, IH.
Qed.

(** A separator at the end of a path is cleaned away. *)
Lemma Clean_trailing_sep Y :
  Y ≠ "" → filepath.Clean (Y +:+ "/" +:+ "") = filepath.Clean Y.
Proof.
  intros HY. unfold filepath.Clean, filepath.clean_stack.
  rewrite path_facts.rooted_app by done.
  rewrite path_facts.split_app_sep, fold_left_app.
  destruct (String.eqb_spec Y ""); [done|].
  destruct (String.eqb_spec (Y +:+ "/" +:+ "") "") as [E|_]; [|done].
  by apply path_facts.append_eq_empty in E.
Qed.

(** The path of [Delete] for an empty resource is the collection directory. *)
Lemma Join_empty_resource_dir a c :
  c ≠ "" → filepath.Join [a; c; ""] = filepath.Join [a; c].
Proof.
  intros Hc. simpl.
  destruct (String.eqb_spec a ""), (String.eqb_spec c ""); try done.
  - by apply Clean_trailing_sep.
  - replace (a +:+ "/" +:+ c +:+ "/" +:+ "")
      with ((a +:+ "/" +:+ c) +:+ "/" +:+ "") by by rewrite append_assoc.
    apply Clean_trailing_sep. by intros ?%path_facts.append_eq_empty.
Qed.

(** The collection directory of a collection that is named by one element:
    the entry [c] of some directory [parent]; with a suffix appended, the
    entry [c +:+ s] next to it. *)
Lemma collection_dir wd a c :
  real_name c = true →
  filepath.Join [a; c] ≠ ""
  ∧ os.endsWithDot (filepath.Join [a; c]) = false
  ∧ ∃ parent, ∀ s, no_sep s = true →
      os.resolve wd (filepath.Join [a; c] +:+ s) = (parent ++ [c +:+ s])%list.
Proof.
  intros Hc. set (dir0 := filepath.Join [a; c]).
  assert (∃ Y st, dir0 = filepath.Clean Y
                  ∧ filepath.clean_stack Y = c :: st) as (Y & st & E & Hst).
  { apply path_facts.real_name_spec in Hc as Hc'.
    destruct Hc' as (Hne & _ & _ & Hns).
    unfold dir0. simpl.
    destruct (String.eqb_spec a ""), (String.eqb_spec c ""); try done.
    - exists c, []. split; [done|].
      unfold filepath.clean_stack. rewrite path_facts.split_no_sep by done.
      simpl. by rewrite path_facts.clean_step_real.
    - exists (a +:+ "/" +:+ c), (filepath.clean_stack a). split; [done|].
      by apply path_facts.clean_stack_entry. }
  rewrite E. split; [apply path_facts.Clean_nonempty|]. split.
  - by eapply path_facts.endsWithDot_Clean_top.
  - eexists. intros s Hs. by apply path_facts.resolve_Clean_top.
Qed.

Lemma Stat_walk path fs :
  path ≠ "" →
  os.Stat path fs
  = n ← os.walk (root fs) (os.resolve (cwd fs) path); Ok (info_of n).
Proof.
  intros Hp. unfold os.Stat, os.locate. by destruct (String.eqb_spec path "").
Qed.

Lemma ReadDir_walk path fs :
  path ≠ "" →
  os.ReadDir path fs
  = n ← os.walk (root fs) (os.resolve (cwd fs) path);
    match n with
    | File _ => Err ENOTDIR
    | Dir m => Ok (merge_sort (λ x y, String.leb x y) (map fst (map_to_list m)))
    end.
Proof.
  intros Hp. unfold os.ReadDir, os.locate.
  by destruct (String.eqb_spec path "").
Qed.

Lemma ReadFile_walk path fs :
  path ≠ "" →
  os.ReadFile path fs
  = n ← os.walk (root fs) (os.resolve (cwd fs) path);
    match n with File data => Ok data | Dir _ => Err EISDIR end.
Proof.
  intros Hp. unfold os.ReadFile, os.locate.
  by destruct (String.eqb_spec path "").
Qed.

Lemma walk_snoc_inv n p x n' :
  os.walk n (p ++ [x]) = Ok n' →
  ∃ mp, os.walk n p = Ok (Dir mp) ∧ mp !! x = Some n'.
Proof.
  rewrite walk_app. destruct (os.walk n p) as [[b|mp]|e]; simpl; [done| |done].
  destruct (mp !! x) as [n1|] eqn:Ex; [|done]. intros [= ->]. eauto.
Qed.

Lemma walk_snoc n p x mp :
  os.walk n p = Ok (Dir mp) →
  os.walk n (p ++ [x])
  = match mp !! x with Some n' => Ok n' | None => Err ENOENT end.
Proof. intros Hw. rewrite walk_app, Hw. simpl. by destruct (mp !! x). Qed.

(** ** Deleting a collection *)




(** ** Names of record files *)

Lemma length_append a b :
  String.length (a +:+ b) = String.length a + String.length b.
Proof.
  induction a as [|x a IH]; [done|].
  rewrite path_facts.append_cons. simpl. by rewrite IH.
Qed.

(** The resource is read off the name of its file. *)
Lemma append_inj_l a b s : a +:+ s = b +:+ s → a = b.
Proof.
  revert b. induction a as [|x a IH]; intros [|y b] E.
  - done.
  - apply (f_equal String.length) in E.
    rewrite !length_append in E. simpl in E. lia.
  - apply (f_equal String.length) in E.
    rewrite !length_append in E. simpl in E. lia.
  - rewrite !path_facts.append_cons in E. injection E as -> E.
    by rewrite (IH _ E).
Qed.

Lemma last_char_append a c s :
  last_char (a +:+ String c s) = last_char (String c s).
Proof.
  induction a as [|x a IH]; [done|].
  rewrite path_facts.append_cons.
  change (last_char (String x ?t))
    with (match last_char t with None => Some x | Some d => Some d end).
  rewrite IH. simpl. by destruct (last_char s).
Qed.

(** No temporary file has the name of a record file. *)
Lemma tmp_ne_json a b : (a +:+ ".json") +:+ ".tmp" ≠ b +:+ ".json".
Proof.
  intros E. apply (f_equal last_char) in E.
  by rewrite !last_char_append in E.
Qed.

Lemma real_name_json r : no_sep r = true → real_name (r +:+ ".json") = true.
Proof.
  intros Hr. apply path_facts.real_name_spec. split; [|split; [|split]].
  - intros E. pose proof (append_json_nonempty r) as Hn. by rewrite E in Hn.
  - intros E. pose proof (append_json_not_dot r) as Hn. by rewrite E in Hn.
  - intros E. apply (f_equal last_char) in E.
    by rewrite last_char_append in E.
  - by apply path_facts.no_sep_app.
Qed.

(** ** The calls of [Write], seen from the collection directory *)

Lemma MkdirAll_existing path fs m :
  path ≠ "" →
  os.walk (root fs) (os.resolve (cwd fs) path) = Ok (Dir m) →
  os.MkdirAll path fs = (Ok (), fs).
Proof.
  intros Hp Hw. unfold os.MkdirAll, os.locate.
  destruct (String.eqb_spec path ""); [done|]. simpl.
  rewrite (mkdir_all_exists _ _ _ Hw). apply with_root_same.
Qed.

Lemma MkdirAll_dir path fs fs1 :
  os.MkdirAll path fs = (Ok (), fs1) →
  path ≠ "" ∧ cwd fs1 = cwd fs
  ∧ ∃ m1, os.walk (root fs1) (os.resolve (cwd fs) path) = Ok (Dir m1)
          ∧ (os.Stat path fs = Err ENOENT → m1 = ∅).
Proof.
  unfold os.MkdirAll, os.Stat, os.locate.
  destruct (String.eqb_spec path ""); [done|]. cbn [mbind result_bind].
  destruct (os.mkdir_all _ _) as [n1|e] eqn:Em; [|done].
  intros [= <-]. split; [done|]. split; [done|]. simpl.
  destruct (mkdir_all_walk _ _ _ Em) as [m1 Hm1]. exists m1. split; [done|].
  destruct (os.walk (root fs) _) as [n0|e] eqn:Ew; [done|]. simpl.
  intros [= ->]. rewrite (mkdir_all_fresh _ _ _ Ew Em) in Hm1. congruence.
Qed.

Lemma WriteFile_dir path data fs fs' dp x m :
  os.resolve (cwd fs) path = (dp ++ [x])%list →
  os.walk (root fs) dp = Ok (Dir m) →
  os.WriteFile path data fs = (Ok (), fs') →
  cwd fs' = cwd fs ∧ os.walk (root fs') dp = Ok (Dir (<[x := File data]> m)).
Proof.
  intros Hr Hw. unfold os.WriteFile, os.locate.
  destruct (String.eqb path ""); [done|]. cbn [mbind result_bind].
  rewrite Hr. destruct (dp ++ [x])%list as [|y p] eqn:Ep; [by destruct dp|].
  destruct (os.modify _ _ _) as [n'|e] eqn:Em; [|done].
  intros [= <-]. split; [done|]. simpl. rewrite <- Ep in Em.
  destruct (modify_snoc_inv _ _ _ _ _ _ Hw Em) as (o & Ho & Hw').
  simpl in Ho. destruct (m !! x) as [[]|]; by simplify_eq.
Qed.

Lemma Rename_dir oldname newname data fs fs' dp x y m :
  os.resolve (cwd fs) oldname = (dp ++ [x])%list →
  os.resolve (cwd fs) newname = (dp ++ [y])%list →
  x ≠ y →
  os.walk (root fs) dp = Ok (Dir m) →
  m !! x = Some (File data) →
  os.Rename oldname newname fs = (Ok (), fs') →
  cwd fs' = cwd fs
  ∧ os.walk (root fs') dp = Ok (Dir (<[y := File data]> (delete x m))).
Proof.
  intros Ho Hn Hxy Hw Hx. unfold os.Rename, os.locate.
  destruct (String.eqb oldname ""); [done|].
  destruct (String.eqb newname ""); [done|].
  cbn [mbind result_bind]. rewrite Ho, Hn.
  rewrite !(walk_snoc _ _ _ _ Hw), Hx. cbn [mbind result_bind].
  case_bool_decide as Hpp.
  { by apply app_inj_tail in Hpp as [_ ?]. }
  assert (
    os.with_root fs
      (r1 ← os.modify (root fs) (dp ++ [x]) (λ _, Ok None);
       os.modify r1 (dp ++ [y]) (λ _, Ok (Some (File data)))) = (Ok (), fs') →
    cwd fs' = cwd fs
    ∧ os.walk (root fs') dp = Ok (Dir (<[y := File data]> (delete x m))))
    as Hgo.
  { destruct (os.modify (root fs) (dp ++ [x]) _) as [r1|e1] eqn:E1; [|done].
    cbn [mbind result_bind].
    destruct (os.modify r1 (dp ++ [y]) _) as [r2|e2] eqn:E2; [|done].
    intros [= <-]. split; [done|]. simpl.
    destruct (modify_snoc_inv _ _ _ _ _ _ Hw E1) as (o1 & [= <-] & Hw1).
    destruct (modify_snoc_inv _ _ _ _ _ _ Hw1 E2) as (o2 & [= <-] & Hw2).
    done. }
  destruct (m !! y) as [[b|my]|]; [|done|].
  all: case_bool_decide; [done|]; by apply Hgo.
Qed.

Lemma Write_nonempty d c r v fs fs' :
  Write d c r v fs = (Ok (), fs') → c ≠ "" ∧ r ≠ "".
Proof.
  intros Hw. split; intros ->; revert Hw; unfold Write; [done|].
  by destruct (String.eqb c "").
Qed.

(** A successful [Write], seen from the collection directory: [os.MkdirAll]
    made sure of the directory, and the record file is entered into it. *)
Lemma Write_dir d c r v fs fs' :
  no_sep r = true →
  Write d c r v fs = (Ok (), fs') →
  ∃ fs1 m1 b,
    os.MkdirAll (filepath.Join [dir d; c]) fs = (Ok (), fs1)
    ∧ os.walk (root fs1) (os.resolve (cwd fs) (filepath.Join [dir d; c]))
      = Ok (Dir m1)
    ∧ (os.Stat (filepath.Join [dir d; c]) fs = Err ENOENT → m1 = ∅)
    ∧ Marshal v = Ok b
    ∧ cwd fs' = cwd fs
    ∧ os.walk (root fs') (os.resolve (cwd fs) (filepath.Join [dir d; c]))
      = Ok (Dir (<[r +:+ ".json" := File (b +:+ newline)]>
                   (delete ((r +:+ ".json") +:+ ".tmp") m1))).
Proof.
  intros Hr Hw. destruct (Write_nonempty _ _ _ _ _ _ Hw) as [Hc Hrn].
  rewrite (Write_steps _ _ _ _ _ Hc Hrn) in Hw.
  remember (filepath.Join [dir d; c]) as dir0 eqn:Edir.
  destruct (os.MkdirAll dir0 fs) as [[[]|e1] fs1] eqn:Emk; [|done].
  destruct (MkdirAll_dir _ _ _ Emk) as (Hdir & Hcwd1 & m1 & Hw1 & Hfresh).
  destruct (Marshal v) as [b|e1]; [|done].
  exists fs1, m1, b. do 4 (split; [done|]).
  pose proof (real_name_json r Hr) as Hname.
  rewrite (path_facts.Join_two _ _ Hdir) in Hw.
  destruct (os.WriteFile _ _ fs1) as [[[]|e2] fs2] eqn:Ewf; [|done].
  rewrite <- Hcwd1 in Hw1.
  eapply WriteFile_dir in Ewf as [Hcwd2 Hw2]; [| |exact Hw1].
  2:{ by apply path_facts.resolve_entry. }
  rewrite <- Hcwd2 in Hw2.
  eapply Rename_dir in Hw as [Hcwd3 Hw3]; [| | | |exact Hw2|].
  - rewrite Hcwd3, Hcwd2, Hcwd1. split; [done|].
    rewrite Hcwd2, Hcwd1 in Hw3. by rewrite delete_insert_eq in Hw3.
  - by apply path_facts.resolve_entry.
  - rewrite <- (path_facts.append_empty_r (filepath.Clean _)).
    rewrite path_facts.resolve_entry by done.
    by rewrite path_facts.append_empty_r.
  - apply tmp_ne_json.
  - by rewrite lookup_insert_eq.
Qed.

(** A run of successful [Write]s into an existing collection directory adds
    one entry for each record. *)
Lemma write_all_dir d c kvs fs fs' m :
  Forall (λ kv : string * V, no_sep kv.1 = true) kvs →
  NoDup kvs.*1 →
  os.walk (root fs) (os.resolve (cwd fs) (filepath.Join [dir d; c]))
  = Ok (Dir m) →
  (∀ kv, kv ∈ kvs → m !! (kv.1 +:+ ".json") = None) →
  (∀ k, is_Some (m !! k) → ∃ r, k = r +:+ ".json") →
  write_all d c kvs fs = (Ok (), fs') →
  cwd fs' = cwd fs
  ∧ ∃ m' bs,
      os.walk (root fs') (os.resolve (cwd fs) (filepath.Join [dir d; c]))
      = Ok (Dir m')
      ∧ Forall2 (λ kv b, Marshal kv.2 = Ok b) kvs bs
      ∧ map_to_list m' ≡ₚ zip_with record_entry kvs bs ++ map_to_list m.
Proof.
  revert fs m. induction kvs as [|[r v] rest IH]; intros fs m Hns Hnd Hw Hfresh Hkeys.
  - intros [= <-]. split; [done|]. exists m, []. by repeat split.
  - simpl. unfold mbind at 1, io_bind at 1.
    destruct (Write d c r v fs) as [[[]|e] fsa] eqn:EW; [|done].
    inversion_clear Hns as [|?? Hr Hns']. simpl in Hr.
    apply NoDup_cons in Hnd as [Hnotin Hnd'].
    destruct (Write_dir _ _ _ _ _ _ Hr EW)
      as (fs1 & m1 & b & Emk & Hw1 & _ & Hb & Hcwd & Hwa).
    destruct (MkdirAll_dir _ _ _ Emk) as (Hdir & _).
    rewrite (MkdirAll_existing _ _ _ Hdir Hw) in Emk.
    injection Emk as <-. rewrite Hw in Hw1. injection Hw1 as <-.
    assert (m !! ((r +:+ ".json") +:+ ".tmp") = None) as Htmp.
    { destruct (m !! _) as [n|] eqn:E; [|done]. exfalso.
      destruct (Hkeys _ (mk_is_Some _ _ E)) as [r' Hr'].
      by apply tmp_ne_json in Hr'. }
    rewrite (delete_id _ _ Htmp) in Hwa.
    assert (m !! (r +:+ ".json") = None) as Hnew.
    { apply (Hfresh (r, v)). by left. }
    intros Hrest. rewrite <- Hcwd in Hwa.
    set (ma := <[r +:+ ".json" := File (b +:+ newline)]> m) in *.
    assert (∀ kv, kv ∈ rest → ma !! (kv.1 +:+ ".json") = None) as Hfresh'.
    { intros [r' v'] Hin. simpl. unfold ma. rewrite lookup_insert_ne.
      - apply (Hfresh (r', v')). by right.
      - intros E%append_inj_l. subst r'. apply Hnotin.
        by apply (list_elem_of_fmap_2 fst) in Hin. }
    assert (∀ k, is_Some (ma !! k) → ∃ r, k = r +:+ ".json") as Hkeys'.
    { intros k [n Hk]. destruct (decide (k = r +:+ ".json")) as [->|Hne].
      - eauto.
      - unfold ma in Hk. rewrite lookup_insert_ne in Hk by done. eauto. }
    destruct (IH fsa ma Hns' Hnd' Hwa Hfresh' Hkeys' Hrest)
      as (Hcwd' & m' & bs & Hw' & Hbs & Hperm).
    split; [congruence|]. exists m', (b :: bs). rewrite Hcwd in Hw'.
    split; [done|]. split; [by constructor|].
    rewrite Hperm. unfold ma. rewrite map_to_list_insert by done. simpl.
    by rewrite <- Permutation_middle.
Qed.

(** ** Reading a collection *)

(** The loop of [ReadAll] over regular files of the directory. *)
Lemma read_files_dir dir0 names fs m :
  dir0 ≠ "" →
  os.walk (root fs) (os.resolve (cwd fs) dir0) = Ok (Dir m) →
  Forall (λ name, real_name name = true
                  ∧ ∃ data, m !! name = Some (File data)) names →
  read_files dir0 names fs = (Ok (content m <$> names), fs).
Proof.
  intros Hdir Hw. induction 1 as [|name names [Hname [data Hd]] _ IH]; [done|].
  cbn [read_files]. unfold mbind at 1, io_bind at 1, check at 1.
  rewrite (path_facts.Join_two _ _ Hdir).
  rewrite ReadFile_walk by apply path_facts.Clean_nonempty.
  rewrite <- (path_facts.append_empty_r (filepath.Clean _)).
  rewrite path_facts.resolve_entry by done.
  rewrite path_facts.append_empty_r, (walk_snoc _ _ _ _ Hw), Hd. simpl.
  unfold mbind, io_bind. rewrite IH. unfold content at 2. by rewrite Hd.
Qed.

Lemma decode_entries m kvs bs :
  Forall2 (λ (kv : string * V) b, Marshal kv.2 = Ok b) kvs bs →
  Forall (λ kv : string * V,
            ∀ b, Marshal kv.2 = Ok b → Unmarshal (b +:+ newline) = Ok kv.2)
         kvs →
  Forall (λ z : string * node, m !! z.1 = Some z.2)
         (zip_with record_entry kvs bs) →
  Unmarshal <$> (content m <$> (fst <$> zip_with record_entry kvs bs))
  = (λ kv, Ok kv.2) <$> kvs.
Proof.
  induction 1 as [|kv b kvs bs Hb _ IH]; [done|].
  intros Hc Hz. inversion_clear Hc as [|?? Hkv Hc'].
  cbn [zip_with] in Hz |- *. inversion_clear Hz as [|?? Hl Hz'].
  rewrite !fmap_cons, (IH Hc' Hz'). f_equal.
  unfold content. simpl in Hl |- *. rewrite Hl. by apply Hkv.
Qed.

Lemma Write_after_MkdirAll d c r v fs fs1 :
  c ≠ "" → r ≠ "" →
  os.MkdirAll (filepath.Join [dir d; c]) fs = (Ok (), fs1) →
  Write d c r v fs = Write d c r v fs1.
Proof.
  intros Hc Hr Emk. rewrite !(Write_steps _ _ _ _ _ Hc Hr), Emk.
  destruct (MkdirAll_dir _ _ _ Emk) as (Hdir & Hcwd & m1 & Hw1 & _).
  rewrite <- Hcwd in Hw1. by rewrite (MkdirAll_existing _ _ _ Hdir Hw1).
Qed.

(** C7, amended: after a run of successful [Write]s of one or more records
    with distinct resource names, each without separator, into a collection
    whose directory did not exist, [ReadAll] returns as many raw records as
    were written, and decoding them gives the written values, up to order.
    The codec is assumed to decode what it encoded, before the line feed
    that [Write] appends. *)
Theorem ReadAll_after_writes d c kvs fs fs' :
  kvs ≠ [] →
  os.Stat (filepath.Join [dir d; c]) fs = Err ENOENT →
  NoDup kvs.*1 →
  Forall (λ kv : string * V, no_sep kv.1 = true) kvs →
  Forall (λ kv : string * V,
            ∀ b, Marshal kv.2 = Ok b →
                 Unmarshal (b +:+ String "010"%char EmptyString) = Ok kv.2)
         kvs →
  write_all d c kvs fs = (Ok (), fs') →
  ∃ records,
    ReadAll d c fs' = (Ok records, fs')
    ∧ length records = length kvs
    ∧ Unmarshal <$> records ≡ₚ (λ kv, Ok kv.2) <$> kvs.
Proof.
  intros Hne Hfresh Hnd Hns Hcodec Hwr.
  change (String "010"%char EmptyString) with newline in Hcodec.
  destruct kvs as [|[r v] rest] eqn:Ekvs; [done|]. rewrite <- Ekvs in *.
  assert (∃ fs1, os.MkdirAll (filepath.Join [dir d; c]) fs = (Ok (), fs1)
                 ∧ c ≠ "" ∧ write_all d c kvs fs = write_all d c kvs fs1)
    as (fs1 & Emk & Hc & Hsame).
  { rewrite Ekvs in Hwr, Hns |- *. simpl in Hwr |- *.
    unfold mbind at 1, io_bind at 1 in Hwr.
    destruct (Write d c r v fs) as [[[]|e] fsa] eqn:EW; [|done].
    inversion_clear Hns as [|?? Hr _]. simpl in Hr.
    destruct (Write_nonempty _ _ _ _ _ _ EW) as [Hc Hrn].
    destruct (Write_dir _ _ _ _ _ _ Hr EW) as (fs1 & _ & _ & Emk & _).
    exists fs1. split; [done|]. split; [done|].
    unfold mbind, io_bind. by rewrite (Write_after_MkdirAll _ _ _ _ _ _ Hc Hrn Emk). }
  rewrite Hsame in Hwr.
  destruct (MkdirAll_dir _ _ _ Emk) as (Hdir & Hcwd & m1 & Hw1 & Hempty).
  rewrite (Hempty Hfresh) in Hw1. rewrite <- Hcwd in Hw1.
  destruct (write_all_dir d c kvs fs1 fs' ∅ Hns Hnd Hw1)
    as (Hcwd' & m' & bs & Hw' & Hbs & Hperm); [done| |done|].
  { by intros k [n Hk]. }
  rewrite map_to_list_empty, app_nil_r in Hperm. rewrite <- Hcwd' in Hw'.
  remember (merge_sort (λ x y, String.leb x y) (map_to_list m').*1)
    as names eqn:Enames.
  assert (names ≡ₚ (zip_with record_entry kvs bs).*1) as Hnames.
  { rewrite Enames. by rewrite merge_sort_Permutation, Hperm. }
  assert (Forall (λ z : string * node, m' !! z.1 = Some z.2)
            (zip_with record_entry kvs bs)) as Hzs.
  { apply Forall_forall. intros [k n] Hin. rewrite <- Hperm in Hin.
    by apply elem_of_map_to_list in Hin. }
  exists (content m' <$> names). split; [|split].
  - unfold ReadAll. destruct (String.eqb_spec c ""); [done|].
    unfold mbind, io_bind, check, stat.
    rewrite (Stat_walk _ _ Hdir), (ReadDir_walk _ _ Hdir), Hw'. simpl.
    change (map fst (map_to_list m')) with (map_to_list m').*1.
    rewrite <- Enames. apply (read_files_dir _ _ _ _ Hdir Hw').
    apply Forall_forall. intros name Hin. rewrite Hnames in Hin.
    apply list_elem_of_fmap in Hin as ([k nd] & -> & Hin).
    pose proof (proj1 (Forall_forall _ _) Hzs _ Hin) as Hl.
    apply elem_of_lookup_zip_with in Hin as (i & kv & b & [= -> ->] & Hkv & _).
    split; [|by eexists].
    apply real_name_json.
    apply list_elem_of_lookup_2 in Hkv.
    by apply (proj1 (Forall_forall _ _) Hns) in Hkv.
  - rewrite length_fmap, Hnames, length_fmap, length_zip_with_l_eq; [done|].
    by apply Forall2_length in Hbs.
  - rewrite Hnames. by rewrite (decode_entries m' kvs bs).
Qed.

(** ** Reading one record *)

(** The path of [Read] and [Delete] for a resource named by one path
    element: the entry of that name in the collection directory. *)
Lemma record_path wd a c r s :
  c ≠ "" → real_name r = true → no_sep s = true →
  os.resolve wd (filepath.Join [a; c; r] +:+ s)
  = (os.resolve wd (filepath.Join [a; c]) ++ [r +:+ s])%list.
Proof.
  intros Hc Hr Hs. simpl.
  destruct (String.eqb_spec a ""), (String.eqb_spec c ""); try done.
  - rewrite path_facts.resolve_entry by done.
    by rewrite path_facts.resolve_Clean.
  - replace (a +:+ "/" +:+ c +:+ "/" +:+ r)
      with ((a +:+ "/" +:+ c) +:+ "/" +:+ r) by by rewrite append_assoc.
    rewrite path_facts.resolve_entry; [|by intros ?%path_facts.append_eq_empty|done|done].
    by rewrite path_facts.resolve_Clean.
Qed.

Lemma Read_steps d c r fs :
  c ≠ "" → r ≠ "" →
  let record := filepath.Join [dir d; c; r] in
  Read (V:=V) d c r fs =
    match os.Stat record fs with
    | Err ENOENT => (Err ENOENT, fs)
    | _ =>
        match os.ReadFile (record +:+ ".json") fs with
        | Ok b => (Unmarshal b, fs)
        | Err e => (Err e, fs)
        end
    end.
Proof.
  intros Hc Hr. unfold Read.
  destruct (String.eqb_spec c ""); [done|].
  destruct (String.eqb_spec r ""); [done|].
  unfold mbind, io_bind, try, check, raise. cbv zeta.
  destruct (os.Stat _ fs) as [i|[]]; simpl; try done;
    by destruct (os.ReadFile _ fs).
Qed.

(** The defect behind C1, in general: a record written under a name that
    did not exist in the collection is not found by [Read], because [Read]
    looks with [os.Stat] for the path without the extension, which [Write]
    does not create. *)
Lemma Read_misses_new_record d c r v fs fs' :
  real_name r = true →
  os.Stat (filepath.Join [dir d; c; r]) fs = Err ENOENT →
  Write d c r v fs = (Ok (), fs') →
  Read (V:=V) d c r fs' = (Err ENOENT, fs').
Proof.
  intros Hr Hst Hw.
  apply path_facts.real_name_spec in Hr as Hr'.
  destruct Hr' as (Hrn & _ & _ & Hns).
  destruct (Write_nonempty _ _ _ _ _ _ Hw) as [Hc _].
  destruct (Write_dir _ _ _ _ _ _ Hns Hw)
    as (fs1 & m1 & b & Emk & Hw1 & _ & _ & Hcwd & Hw').
  destruct (MkdirAll_dir _ _ _ Emk) as (Hdir & _ & m1' & Hw1' & Hfresh).
  rewrite Hw1 in Hw1'. injection Hw1' as <-.
  pose proof (record_path (cwd fs) (dir d) c r "" Hc Hr eq_refl) as Hrec.
  rewrite !path_facts.append_empty_r in Hrec.
  assert (filepath.Join [dir d; c; r] ≠ "") as Hne.
  { simpl. destruct (String.eqb_spec (dir d) ""), (String.eqb_spec c "");
      try done; apply path_facts.Clean_nonempty. }
  rewrite (Stat_walk _ _ Hne), Hrec in Hst.
  assert (m1 !! r = None) as Hm1.
  { destruct (os.walk (root fs) (os.resolve (cwd fs) (filepath.Join [dir d; c])))
      as [[b0|m]|e] eqn:Ew.
    - revert Emk. unfold os.MkdirAll, os.locate.
      destruct (String.eqb_spec (filepath.Join [dir d; c]) ""); [done|].
      cbn [mbind result_bind]. destruct (os.mkdir_all _ _) as [n1|e1] eqn:Em; [|done].
      destruct (mkdir_all_walk _ _ _ Em) as [m0 Hm0].
      apply (mkdir_all_files _ _ _ Em) in Ew. congruence.
    - rewrite (MkdirAll_existing _ _ _ Hdir Ew) in Emk. injection Emk as <-.
      rewrite Ew in Hw1. injection Hw1 as <-.
      rewrite (walk_snoc _ _ _ _ Ew) in Hst. by destruct (m !! r).
    - rewrite walk_app, Ew in Hst. simpl in Hst. injection Hst as ->.
      rewrite Hfresh; [done|]. by rewrite (Stat_walk _ _ Hdir), Ew. }
  rewrite (Read_steps _ _ _ _ Hc Hrn), (Stat_walk _ _ Hne).
  rewrite Hcwd, Hrec, (walk_snoc _ _ _ _ Hw').
  rewrite lookup_insert_ne, lookup_delete_ne, Hm1; [done| |].
  - intros E. apply (f_equal String.length) in E.
    rewrite !length_append in E. simpl in E. lia.
  - intros E. apply (f_equal String.length) in E.
    rewrite !length_append in E. simpl in E. lia.
Qed.

(** C2, amended: [Read] reads the file at the cleaned path of the collection
    and resource with [.json] appended, whatever form the caller passes.
    Whenever [Read] succeeds, its value is the decoding of that file and the
    file system is unchanged; and when [os.Stat] does not report the path
    without the extension as missing and the file with [.json] appended can
    be read, [Read] returns the decoding of that file. With the extension
    included in the resource, the file read is the one ending in
    [.json.json]: when nothing exists there, [Read] fails with [ENOENT],
    whether or not the record is stored. *)
Theorem Read_extension_form d c r fs :
  c ≠ "" → r ≠ "" →
  let record := filepath.Join [dir d; c; r] in
  (∀ v fs', Read d c r fs = (Ok v, fs') →
     fs' = fs
     ∧ ∃ b, os.ReadFile (record +:+ ".json") fs = Ok b ∧ Unmarshal b = Ok v)
  ∧ (∀ b, os.Stat record fs ≠ Err ENOENT →
          os.ReadFile (record +:+ ".json") fs = Ok b →
          Read (V:=V) d c r fs = (Unmarshal b, fs))
  ∧ (os.Stat (filepath.Join [dir d; c; r +:+ ".json"] +:+ ".json") fs
     = Err ENOENT →
     Read (V:=V) d c (r +:+ ".json") fs = (Err ENOENT, fs)).
Proof.
  intros Hc Hr record. split; [|split].
  - intros v fs' Hrd. rewrite (Read_steps _ _ _ _ Hc Hr) in Hrd. fold record in Hrd.
    destruct (os.Stat record fs) as [i|[]];
      destruct (os.ReadFile _ fs) as [b|e]; try done.
    all: injection Hrd as Hu <-; eauto.
  - intros b Hst Hrf. rewrite (Read_steps _ _ _ _ Hc Hr). fold record.
    rewrite Hrf. by destruct (os.Stat record fs) as [i|[]].
  - intros Hst. rewrite Read_steps; [|done|].
    2:{ intros E. pose proof (append_json_nonempty r) as Hn.
        by rewrite E in Hn. }
    rewrite (Stat_err_ReadFile _ _ _ Hst).
    by destruct (os.Stat (filepath.Join [dir d; c; r +:+ ".json"]) fs)
      as [i|[]].
Qed.

End claims.

(** ** The claims on the sample run *)

(** C1, at the input where the code fails: on the database of the sample
    run, [Write] of a record returns no error, and [Read] of the same
    collection and resource then fails with [ENOENT] instead of yielding the
    value. *)
Theorem Read_after_Write_not_found :
  Write db "user" "John" (JBool true) fs_opened = (Ok (), fs_john)
  ∧ Read (V:=jvalue) db "user" "John" fs_john = (Err ENOENT, fs_john).
Proof.
  assert (Write db "user" "John" (JBool true) fs_opened = (Ok (), fs_john))
    as Hw.
  { unfold fs_john, after.
    by destruct (Write db "user" "John" (JBool true) fs_opened)
      as [[[]|e] fs'] eqn:E; vm_compute in E. }
  split; [done|].
  apply Read_misses_new_record with (v := JBool true) (fs := fs_opened);
    [by vm_compute|by vm_compute|exact Hw].
Qed.

(** C2, counterexample: with the record [John] stored in the collection
    [user] next to a directory [John], [Read] of [John] yields the value and
    [Read] of [John.json] fails. *)
Lemma Read_with_extension_differs :
  os.ReadFile "db/user/John.json" fs_nested = Ok ("true" +:+ newline)
  ∧ fst (Read (V:=jvalue) db "user" "John" fs_nested) = Ok (JBool true)
  ∧ fst (Read (V:=jvalue) db "user" "John.json" fs_nested) = Err ENOENT.
Proof. by vm_compute. Qed.

(** The same on the sample run: the record is stored and neither form of
    the name reads it. *)
Example Read_sample :
  os.ReadFile "db/user/John.json" fs_john = Ok ("true" +:+ newline)
  ∧ fst (Read (V:=jvalue) db "user" "John" fs_john) = Err ENOENT
  ∧ fst (Read (V:=jvalue) db "user" "John.json" fs_john) = Err ENOENT.
Proof. by vm_compute. Qed.

Lemma Read_extension_form_witness :
  "user" ≠ "" ∧ "John" ≠ ""
  ∧ os.ReadFile (filepath.Join [dir db; "user"; "John"] +:+ ".json") fs_nested
    = Ok ("true" +:+ newline)
  ∧ Read (V:=jvalue) db "user" "John" fs_nested = (Ok (JBool true), fs_nested)
  ∧ os.Stat (filepath.Join [dir db; "user"; "John" +:+ ".json"] +:+ ".json")
      fs_nested = Err ENOENT
  ∧ Read (V:=jvalue) db "user" ("John" +:+ ".json") fs_nested
    = (Err ENOENT, fs_nested).
Proof.
  destruct (Read_extension_form (V:=jvalue) db "user" "John" fs_nested)
    as (_ & Hread & Hext); [done|done|].
  split; [done|]. split; [done|]. split; [by vm_compute|]. split; [|split].
  - apply (Hread ("true" +:+ newline)); by vm_compute.
  - by vm_compute.
  - apply Hext. by vm_compute.
Defined.

(** C3, counterexample: [Write] of a value that the codec refuses returns
    the encoding error, and the collection directory, which did not exist,
    exists afterwards. *)
Lemma Write_encoding_failure_creates_dir :
  fst (Write db "user" "x" JFunc fs_opened) = Err unsupported
  ∧ os.Stat "db/user" fs_opened = Err ENOENT
  ∧ os.Stat "db/user" (after (Write db "user" "x" JFunc) fs_opened) = Ok IsDir.
Proof. by vm_compute. Qed.

Lemma Write_encoding_failure_witness :
  "user" ≠ "" ∧ "x" ≠ "" ∧ Marshal JFunc = Err unsupported
  ∧ os.Stat (filepath.Join [dir db; "user"]) fs_opened = Err ENOENT
  ∧ Write db "user" "x" JFunc fs_opened
    = (Err unsupported,
       snd (os.MkdirAll (filepath.Join [dir db; "user"]) fs_opened))
  ∧ os.Stat (filepath.Join [dir db; "user"])
      (after (Write db "user" "x" JFunc) fs_opened) = Ok IsDir
  ∧ ∀ p b, os.ReadFile p (after (Write db "user" "x" JFunc) fs_opened) = Ok b
           ↔ os.ReadFile p fs_opened = Ok b.
Proof.
  destruct (Write_encoding_failure db "user" "x" JFunc fs_opened unsupported)
    as (Hw & Hd & Hf); [done|done|reflexivity|].
  split; [done|]. split; [done|]. split; [reflexivity|].
  split; [by vm_compute|]. split; [exact Hw|]. split; [|exact Hf].
  apply Hd. by vm_compute.
Defined.

(** C4, counterexample: [Delete] with an empty resource key returns no
    error, and the record that was there is gone. *)
Lemma Delete_empty_resource_accepted :
  fst (Delete db "user" "" fs_john) = Ok ()
  ∧ os.Stat "db/user/John.json" fs_john = Ok IsRegular
  ∧ os.Stat "db/user/John.json" (after (Delete db "user" "") fs_john)
    = Err ENOENT.
Proof. by vm_compute. Qed.



Lemma Delete_missing_witness :
  is_Ok (os.Stat (filepath.Join [dir db; "user"; "nonexistent"]) fs_john)
  = false
  ∧ is_Ok (os.Stat (filepath.Join [dir db; "user"; "nonexistent"] +:+ ".json")
             fs_john) = false
  ∧ Delete db "user" "nonexistent" fs_john
    = (Err (Errorf ("db/user/nonexistent" +:+ " does not exist")), fs_john).
Proof.
  split; [by vm_compute|]. split; [by vm_compute|].
  apply (Delete_missing db "user" "nonexistent" fs_john); by vm_compute.
Defined.

Lemma Delete_with_extension_witness :
  os.Stat (filepath.Join [dir db; "user"; "John" +:+ ".json"]) fs_john
  = Ok IsRegular
  ∧ os.Stat (filepath.Join [dir db; "user"; "John" +:+ ".json"] +:+ ".json")
      fs_john = Err ENOENT
  ∧ Delete db "user" ("John" +:+ ".json") fs_john = (Ok (), fs_john).
Proof.
  split; [by vm_compute|]. split; [by vm_compute|].
  apply (Delete_with_extension_removes_nothing db "user" "John" fs_john);
    by vm_compute.
Defined.

Lemma Write_stores_encoding_witness :
  Write db "user" "John" (JBool true) fs_opened = (Ok (), fs_john)
  ∧ ∃ b, Marshal (JBool true) = Ok b
         ∧ os.ReadFile
             (filepath.Join [filepath.Join [dir db; "user"]; "John" +:+ ".json"])
             fs_john = Ok (b +:+ String "010"%char EmptyString).
Proof.
  assert (Write db "user" "John" (JBool true) fs_opened = (Ok (), fs_john))
    as Hw by by vm_compute.
  split; [exact Hw|].
  exact (Write_stores_encoding db "user" "John" (JBool true) fs_opened fs_john Hw).
Defined.

Lemma New_twice_witness :
  is_Ok (os.Stat (filepath.Clean "./db") fs_opened) = true
  ∧ New "./db" empty_fs = ((db, Ok ()), fs_opened)
  ∧ New "./db" fs_opened = ((db, Ok ()), fs_opened).
Proof.
  split; [by vm_compute|]. split; [by vm_compute|].
  apply (proj1 (proj2 (New_twice "./db" empty_fs)) db fs_opened).
  by vm_compute.
Defined.

(** C7, counterexample: a resource name may lead out of the collection.
    One record written to the fresh collection [user] under the name [../x]
    is stored next to the collection directory, and [ReadAll] returns no
    record; the names [a] and [./a] are distinct and share one record file;
    and with no record written, the collection does not exist and [ReadAll]
    fails. *)
Lemma ReadAll_after_write_outside :
  os.Stat (filepath.Join [dir db; "user"]) fs_opened = Err ENOENT
  ∧ write_all db "user" [("../x", JBool true)] fs_opened = (Ok (), fs_outside)
  ∧ ReadAll db "user" fs_outside = (Ok [], fs_outside)
  ∧ os.ReadFile "db/x.json" fs_outside = Ok ("true" +:+ newline)
  ∧ (∃ fs', write_all db "user" [("a", JBool true); ("./a", JBool false)]
              fs_opened = (Ok (), fs')
            ∧ ReadAll db "user" fs' = (Ok ["false" +:+ newline], fs'))
  ∧ write_all (V:=jvalue) db "user" [] fs_opened = (Ok (), fs_opened)
  ∧ ReadAll db "user" fs_opened = (Err ENOENT, fs_opened).
Proof.
  do 4 (split; [by vm_compute|]). split; [|by vm_compute].
  eexists. split; by vm_compute.
Qed.

Lemma ReadAll_after_writes_witness :
  two_records ≠ []
  ∧ os.Stat (filepath.Join [dir db; "user"]) fs_opened = Err ENOENT
  ∧ NoDup two_records.*1
  ∧ write_all db "user" two_records fs_opened = (Ok (), fs_two)
  ∧ ∃ records,
      ReadAll db "user" fs_two = (Ok records, fs_two)
      ∧ length records = length two_records
      ∧ Unmarshal <$> records ≡ₚ (λ kv, Ok kv.2) <$> two_records.
Proof.
  assert (NoDup two_records.*1) as Hnd.
  { apply (bool_decide_unpack _). by vm_compute. }
  assert (write_all db "user" two_records fs_opened = (Ok (), fs_two))
    as Hw by by vm_compute.
  split; [done|]. split; [by vm_compute|]. split; [exact Hnd|].
  split; [exact Hw|].
  apply (ReadAll_after_writes db "user" two_records fs_opened fs_two);
    [done|by vm_compute|exact Hnd| | |exact Hw].
  - repeat constructor.
  - repeat constructor; by intros b [= <-].
Defined.

(** * Further properties of the driver *)

(** ** The lock table *)

Lemma getOrCreateNewMutex_lookup c t :
  mutexes (snd (getOrCreateNewMutex c t)) !! c
  = Some (fst (getOrCreateNewMutex c t)).
Proof.
  unfold getOrCreateNewMutex. destruct (mutexes t !! c) eqn:E; simpl; [done|].
  by rewrite lookup_insert_eq.
Qed.

Lemma getOrCreateNewMutex_keeps c c' t m :
  mutexes t !! c = Some m →
  mutexes (snd (getOrCreateNewMutex c' t)) !! c = Some m.
Proof.
  intros Hm. unfold getOrCreateNewMutex.
  destruct (mutexes t !! c') eqn:E; simpl; [done|].
  rewrite lookup_insert_ne; [done|]. intros ->. congruence.
Qed.

Lemma lock_calls_keeps cs c t m :
  mutexes t !! c = Some m → mutexes (lock_calls cs t) !! c = Some m.
Proof.
  revert t. induction cs as [|c' cs IH]; intros t Hm; [done|].
  simpl. by apply IH, getOrCreateNewMutex_keeps.
Qed.

Lemma getOrCreateNewMutex_again c cs t :
  fst (getOrCreateNewMutex c (lock_calls cs (snd (getOrCreateNewMutex c t))))
  = fst (getOrCreateNewMutex c t).
Proof.
  pose proof (getOrCreateNewMutex_lookup c t) as Hl.
  apply (lock_calls_keeps cs) in Hl.
  unfold getOrCreateNewMutex at 1. by rewrite Hl.
Qed.

(** X1: the lock table only grows, and the mutex of a collection never
    changes: an entry of the table is still there, with the same mutex,
    after any calls of [getOrCreateNewMutex], and a later call for that
    collection returns the mutex that its first call returned. *)
Theorem getOrCreateNewMutex_stable c cs t :
  (∀ c' m, mutexes t !! c' = Some m →
           mutexes (lock_calls cs t) !! c' = Some m)
  ∧ fst (getOrCreateNewMutex c
           (lock_calls cs (snd (getOrCreateNewMutex c t))))
    = fst (getOrCreateNewMutex c t).
Proof.
  split; [|apply getOrCreateNewMutex_again].
  intros c' m. apply lock_calls_keeps.
Qed.

Lemma getOrCreateNewMutex_ok c t :
  table_ok t → table_ok (snd (getOrCreateNewMutex c t)).
Proof.
  intros [Hlt Hinj]. unfold getOrCreateNewMutex.
  destruct (mutexes t !! c) eqn:E; simpl; [done|]. split; simpl.
  - intros c' m. destruct (decide (c = c')) as [->|Hne].
    + rewrite lookup_insert_eq. intros [= <-]. lia.
    + rewrite lookup_insert_ne by done. intros Hm%Hlt. lia.
  - intros c1 c2 m.
    destruct (decide (c = c1)) as [E1|H1], (decide (c = c2)) as [E2|H2];
      subst; rewrite ?lookup_insert_eq, ?lookup_insert_ne by done.
    + done.
    + intros [= <-] Hm%Hlt. lia.
    + intros Hm%Hlt [= <-]. lia.
    + apply Hinj.
Qed.

Lemma lock_calls_ok cs t : table_ok t → table_ok (lock_calls cs t).
Proof.
  revert t. induction cs as [|c cs IH]; intros t Ht; [done|].
  simpl. by apply IH, getOrCreateNewMutex_ok.
Qed.

Lemma new_table_ok : table_ok new_table.
Proof. split; simpl; intros *; by rewrite lookup_empty. Qed.

(** X2: in a table that started empty and was only changed by
    [getOrCreateNewMutex], two collections share a mutex only if they are
    the same collection: a call for [c1] and a later call for [c2] return
    the same pointer exactly when [c1 = c2]. *)
Theorem getOrCreateNewMutex_one_per_collection cs cs' c1 c2 :
  let t := lock_calls cs new_table in
  let t' := lock_calls cs' (snd (getOrCreateNewMutex c1 t)) in
  fst (getOrCreateNewMutex c1 t) = fst (getOrCreateNewMutex c2 t')
  ↔ c1 = c2.
Proof.
  intros t t'. split.
  - intros E.
    assert (table_ok (snd (getOrCreateNewMutex c2 t'))) as [_ Hinj].
    { apply getOrCreateNewMutex_ok, lock_calls_ok, getOrCreateNewMutex_ok,
        lock_calls_ok, new_table_ok. }
    apply (Hinj c1 c2 (fst (getOrCreateNewMutex c1 t))).
    + apply getOrCreateNewMutex_keeps, lock_calls_keeps,
        getOrCreateNewMutex_lookup.
    + rewrite E. apply getOrCreateNewMutex_lookup.
  - intros <-. symmetry. apply getOrCreateNewMutex_again.
Qed.

(** ** More on the directory tree *)

Section tree_more.
Implicit Types (n : node) (p q dp : list string) (m : gmap string node).

Lemma replace_same n dp a : os.walk n dp = Ok a → replace n dp a = n.
Proof.
  revert n. induction dp as [|x dp IH]; intros n Hw.
  - simpl in Hw. by injection Hw as ->.
  - destruct n as [b|m]; [done|]. simpl in Hw |- *.
    destruct (m !! x) as [n1|] eqn:Ex; [|done].
    by rewrite (IH _ Hw), insert_id.
Qed.

Lemma replace_replace n dp a0 a b :
  os.walk n dp = Ok a0 → replace (replace n dp a) dp b = replace n dp b.
Proof.
  revert n. induction dp as [|x dp IH]; intros n Hw; [done|].
  destruct n as [b0|m]; [done|]. simpl in Hw |- *.
  destruct (m !! x) as [n1|] eqn:Ex; [|done]. simpl.
  by rewrite lookup_insert_eq, insert_insert_eq, (IH _ Hw).
Qed.

Lemma walk_replace n dp a0 a :
  os.walk n dp = Ok a0 → os.walk (replace n dp a) dp = Ok a.
Proof.
  revert n. induction dp as [|x dp IH]; intros n Hw; [done|].
  destruct n as [b0|m]; [done|]. simpl in Hw |- *.
  destruct (m !! x) as [n1|] eqn:Ex; [|done]. simpl.
  rewrite lookup_insert_eq. by apply IH.
Qed.

(** [modify] on an entry of the directory at [dp] replaces that directory. *)
Lemma modify_replace n dp x f n' md :
  os.walk n dp = Ok (Dir md) →
  os.modify n (dp ++ [x]) f = Ok n' →
  ∃ o, f (md !! x) = Ok o ∧ n' = replace n dp (Dir (os.set_entry x o md)).
Proof.
  revert n n'. induction dp as [|y dp IH]; intros n n' Hw Hm.
  - simpl in Hw. injection Hw as ->. simpl in Hm.
    destruct (f (md !! x)) as [o|e]; [|done].
    simpl in Hm. injection Hm as <-. by exists o.
  - destruct n as [b|m]; [done|]. simpl in Hw.
    destruct (m !! y) as [n1|] eqn:Ey; [|done].
    simpl in Hm. destruct (dp ++ [x])%list as [|z r] eqn:Er.
    { by destruct dp. }
    rewrite Ey in Hm.
    destruct (os.modify n1 (z :: r) f) as [n2|e] eqn:E2; [|done].
    simpl in Hm. injection Hm as <-.
    destruct (IH _ _ Hw E2) as (o & Ho & ->). exists o. split; [done|].
    simpl. by rewrite Ey.
Qed.

Lemma modify_replace_ok n dp x f md o :
  os.walk n dp = Ok (Dir md) →
  f (md !! x) = Ok o →
  os.modify n (dp ++ [x]) f = Ok (replace n dp (Dir (os.set_entry x o md))).
Proof.
  intros Hw Hf.
  destruct (modify_snoc_ok n dp x f md o Hw Hf) as (n' & Hm & _).
  destruct (modify_replace _ _ _ _ _ _ Hw Hm) as (o' & Ho' & ->).
  rewrite Hf in Ho'. by injection Ho' as <-.
Qed.

Lemma modify_err n dp x f md e :
  os.walk n dp = Ok (Dir md) →
  f (md !! x) = Err e →
  os.modify n (dp ++ [x]) f = Err e.
Proof.
  intros Hw Hf. destruct (os.modify n (dp ++ [x]) f) as [n'|e'] eqn:Em.
  - destruct (modify_snoc_inv _ _ _ _ _ _ Hw Em) as (o & Ho & _). congruence.
  - revert n Hw Em. induction dp as [|y dp IH]; intros n Hw Em.
    + simpl in Hw. injection Hw as ->. simpl in Em. rewrite Hf in Em.
      simpl in Em. congruence.
    + destruct n as [b|m]; [done|]. simpl in Hw.
      destruct (m !! y) as [n1|] eqn:Ey; [|done].
      simpl in Em. destruct (dp ++ [x])%list as [|z r] eqn:Er.
      { by destruct dp. }
      rewrite Ey in Em.
      destruct (os.modify n1 (z :: r) f) as [n2|e2] eqn:E2; [done|].
      simpl in Em. injection Em as <-. by apply (IH n1).
Qed.

(** The errors of a lookup. *)
Lemma walk_err n p e : os.walk n p = Err e → e = ENOENT ∨ e = ENOTDIR.
Proof.
  revert n. induction p as [|x p IH]; intros n; [done|].
  destruct n as [b|m]; simpl; [intros [= <-]; by right|].
  destruct (m !! x) as [n1|]; [apply IH|intros [= <-]; by left].
Qed.



(** Below a regular file [mkdir_all] fails. *)
Lemma mkdir_all_through_file n p q b x :
  os.walk n p = Ok (File b) → os.mkdir_all n (p ++ x :: q) = Err ENOTDIR.
Proof.
  revert n. induction p as [|y p IH]; intros n Hw.
  - simpl in Hw. by injection Hw as ->.
  - destruct n as [b0|m]; [done|]. simpl in Hw |- *.
    destruct (m !! y) as [n1|] eqn:Ey; [|done]. simpl.
    by rewrite (IH _ Hw).
Qed.

(** [mkdir_all] changes nothing below the directory it makes sure of. *)
Lemma mkdir_all_below n p n' x q :
  os.mkdir_all n p = Ok n' →
  os.walk n' (p ++ x :: q) = os.walk n (p ++ x :: q).
Proof.
  revert n n'. induction p as [|y p IH]; intros n n' Hm.
  - destruct n as [b|m]; [done|]. by injection Hm as <-.
  - destruct n as [b|m]; [done|]. simpl in Hm.
    destruct (os.mkdir_all (default (Dir ∅) (m !! y)) p) as [n1|e] eqn:E1;
      [|done].
    simpl in Hm. injection Hm as <-. simpl. rewrite lookup_insert_eq.
    rewrite (IH _ _ E1). destruct (m !! y) as [n0|]; simpl; [done|].
    destruct p; simpl; by rewrite lookup_empty.
Qed.

End tree_more.

(** ** The calls of the driver on an entry of a directory *)

Lemma WriteFile_entry path data fs dp x m :
  path ≠ "" →
  os.resolve (cwd fs) path = (dp ++ [x])%list →
  os.walk (root fs) dp = Ok (Dir m) →
  os.WriteFile path data fs =
    match m !! x with
    | Some (Dir _) => (Err EISDIR, fs)
    | _ => (Ok (), {| root := replace (root fs) dp (Dir (<[x := File data]> m));
                      cwd := cwd fs |})
    end.
Proof.
  intros Hp Hr Hw. unfold os.WriteFile, os.locate.
  destruct (String.eqb_spec path ""); [done|]. cbn [mbind result_bind].
  rewrite Hr. destruct (dp ++ [x])%list as [|y p] eqn:Ep; [by destruct dp|].
  rewrite <- Ep.
  destruct (m !! x) as [[b|mx]|] eqn:Ex.
  - rewrite (modify_replace_ok _ _ _ _ _ (Some (File data)) Hw);
      [done|by rewrite Ex].
  - rewrite (modify_err _ _ _ _ _ EISDIR Hw); [done|by rewrite Ex].
  - rewrite (modify_replace_ok _ _ _ _ _ (Some (File data)) Hw);
      [done|by rewrite Ex].
Qed.

Lemma snoc_prefix {A} (l : list A) x y :
  (l ++ [x])%list `prefix_of` (l ++ [y])%list → x = y.
Proof.
  intros [k Hk]. rewrite <- app_assoc in Hk. apply app_inv_head in Hk.
  by injection Hk as ->.
Qed.

Lemma Rename_entry oldname newname data fs dp x y m :
  oldname ≠ "" → newname ≠ "" →
  os.resolve (cwd fs) oldname = (dp ++ [x])%list →
  os.resolve (cwd fs) newname = (dp ++ [y])%list →
  x ≠ y →
  os.walk (root fs) dp = Ok (Dir m) →
  m !! x = Some (File data) →
  os.Rename oldname newname fs =
    match m !! y with
    | Some (Dir _) => (Err EEXIST, fs)
    | _ => (Ok (), {| root := replace (root fs) dp
                                (Dir (<[y := File data]> (delete x m)));
                      cwd := cwd fs |})
    end.
Proof.
  intros Ho Hn Hro Hrn Hxy Hw Hx. unfold os.Rename, os.locate.
  destruct (String.eqb_spec oldname ""); [done|].
  destruct (String.eqb_spec newname ""); [done|].
  cbn [mbind result_bind]. rewrite Hro, Hrn.
  rewrite !(walk_snoc _ _ _ _ Hw), Hx. cbn [mbind result_bind].
  case_bool_decide as Hpp.
  { by apply app_inj_tail in Hpp as [_ ?]. }
  assert (
    os.with_root fs
      (r1 ← os.modify (root fs) (dp ++ [x]) (λ _, Ok None);
       os.modify r1 (dp ++ [y]) (λ _, Ok (Some (File data))))
    = (Ok (), {| root := replace (root fs) dp
                           (Dir (<[y := File data]> (delete x m)));
                 cwd := cwd fs |})) as Hgo.
  { rewrite (modify_replace_ok _ _ _ _ _ None Hw eq_refl).
    cbn [mbind result_bind os.set_entry].
    rewrite (modify_replace_ok _ _ y _ (delete x m) (Some (File data))
               (walk_replace _ _ _ _ Hw) eq_refl).
    by rewrite (replace_replace _ _ _ _ _ Hw). }
  destruct (m !! y) as [[b|my]|]; [|done|].
  all: case_bool_decide as Hpre; [by apply snoc_prefix in Hpre|exact Hgo].
Qed.

Lemma RemoveAll_entry path fs dp x m :
  path ≠ "" → os.endsWithDot path = false →
  os.resolve (cwd fs) path = (dp ++ [x])%list →
  os.walk (root fs) dp = Ok (Dir m) →
  os.RemoveAll path fs
  = (Ok (), {| root := replace (root fs) dp (Dir (delete x m));
               cwd := cwd fs |}).
Proof.
  intros Hp Hdot Hr Hw. unfold os.RemoveAll.
  destruct (String.eqb_spec path ""); [done|]. rewrite Hdot, Hr.
  destruct (dp ++ [x])%list as [|y p] eqn:Ep; [by destruct dp|].
  rewrite <- Ep.
  by rewrite (modify_replace_ok _ _ _ _ _ None Hw eq_refl).
Qed.

(** ** Further properties of [Write], [Read], [ReadAll], [Delete], [New] *)

Section more.
Context {V : Type} `{Codec V}.
Implicit Types (d : Driver) (fs : filesystem) (v : V).

Lemma Join_collection_nonempty a c : c ≠ "" → filepath.Join [a; c] ≠ "".
Proof.
  intros Hc. simpl.
  destruct (String.eqb_spec a ""), (String.eqb_spec c ""); try done;
    apply path_facts.Clean_nonempty.
Qed.

(** The paths of [Write] for a resource without separator: the record file
    and the temporary file are entries of the collection directory. *)
Lemma Write_paths wd a c r :
  c ≠ "" → no_sep r = true →
  let dir0 := filepath.Join [a; c] in
  let fnl := filepath.Join [dir0; r +:+ ".json"] in
  fnl ≠ "" ∧ fnl +:+ ".tmp" ≠ ""
  ∧ os.resolve wd fnl = (os.resolve wd dir0 ++ [r +:+ ".json"])%list
  ∧ os.resolve wd (fnl +:+ ".tmp")
    = (os.resolve wd dir0 ++ [(r +:+ ".json") +:+ ".tmp"])%list.
Proof.
  intros Hc Hr dir0 fnl. unfold fnl.
  pose proof (Join_collection_nonempty a c Hc) as Hdir. fold dir0 in Hdir.
  pose proof (real_name_json r Hr) as Hname.
  rewrite (path_facts.Join_two _ _ Hdir).
  split; [apply path_facts.Clean_nonempty|]. split.
  { intros E%path_facts.append_eq_empty. by apply path_facts.Clean_nonempty in E. }
  split.
  - rewrite <- (path_facts.append_empty_r (filepath.Clean _)).
    rewrite path_facts.resolve_entry by done.
    by rewrite path_facts.append_empty_r.
  - by apply path_facts.resolve_entry.
Qed.

(** [Write] into a collection directory that exists, for a resource without
    separator, outcome by outcome. *)
Lemma Write_existing d c r v fs m :
  c ≠ "" → r ≠ "" → no_sep r = true →
  os.walk (root fs) (os.resolve (cwd fs) (filepath.Join [dir d; c]))
  = Ok (Dir m) →
  Write d c r v fs =
    match Marshal v with
    | Err e => (Err e, fs)
    | Ok b =>
        match m !! ((r +:+ ".json") +:+ ".tmp") with
        | Some (Dir _) => (Err EISDIR, fs)
        | _ =>
            match m !! (r +:+ ".json") with
            | Some (Dir _) =>
                (Err EEXIST,
                 {| root := replace (root fs)
                      (os.resolve (cwd fs) (filepath.Join [dir d; c]))
                      (Dir (<[(r +:+ ".json") +:+ ".tmp"
                              := File (b +:+ newline)]> m));
                    cwd := cwd fs |})
            | _ =>
                (Ok (),
                 {| root := replace (root fs)
                      (os.resolve (cwd fs) (filepath.Join [dir d; c]))
                      (Dir (<[r +:+ ".json" := File (b +:+ newline)]>
                              (delete ((r +:+ ".json") +:+ ".tmp") m)));
                    cwd := cwd fs |})
            end
        end
    end.
Proof.
  intros Hc Hrn Hr Hw.
  destruct (Write_paths (cwd fs) (dir d) c r Hc Hr) as (Hf & Ht & Hrf & Hrt).
  pose proof (Join_collection_nonempty (dir d) c Hc) as Hdir.
  rewrite (Write_steps _ _ _ _ _ Hc Hrn).
  rewrite (MkdirAll_existing _ _ _ Hdir Hw).
  destruct (Marshal v) as [b|e]; [|done].
  rewrite (WriteFile_entry _ _ _ _ _ _ Ht Hrt Hw).
  set (t := (r +:+ ".json") +:+ ".tmp") in *.
  set (k := r +:+ ".json") in *.
  set (data := b +:+ newline).
  assert (t ≠ k) as Htk by apply tmp_ne_json.
  assert (os.Rename (filepath.Join [filepath.Join [dir d; c]; k] +:+ ".tmp")
            (filepath.Join [filepath.Join [dir d; c]; k])
            {| root := replace (root fs)
                  (os.resolve (cwd fs) (filepath.Join [dir d; c]))
                  (Dir (<[t := File data]> m));
               cwd := cwd fs |}
          = match m !! k with
            | Some (Dir _) =>
                (Err EEXIST,
                 {| root := replace (root fs)
                      (os.resolve (cwd fs) (filepath.Join [dir d; c]))
                      (Dir (<[t := File data]> m));
                    cwd := cwd fs |})
            | _ =>
                (Ok (),
                 {| root := replace (root fs)
                      (os.resolve (cwd fs) (filepath.Join [dir d; c]))
                      (Dir (<[k := File data]> (delete t m)));
                    cwd := cwd fs |})
            end) as Hren.
  { erewrite (Rename_entry _ _ data _ _ t k (<[t := File data]> m));
      [|done|done|exact Hrt|exact Hrf|done| |by rewrite lookup_insert_eq].
    2:{ simpl. by apply (walk_replace _ _ _ _ Hw). }
    rewrite lookup_insert_ne by done. simpl.
    by rewrite (replace_replace _ _ _ _ _ Hw), delete_insert_eq. }
  destruct (m !! t) as [[bt|mt]|]; [exact Hren|done|exact Hren].
Qed.

Lemma MkdirAll_below path fs fs1 x q :
  os.MkdirAll path fs = (Ok (), fs1) →
  os.walk (root fs1) (os.resolve (cwd fs) path ++ x :: q)
  = os.walk (root fs) (os.resolve (cwd fs) path ++ x :: q).
Proof.
  unfold os.MkdirAll, os.locate.
  destruct (String.eqb_spec path ""); [done|]. cbn [mbind result_bind].
  destruct (os.mkdir_all _ _) as [n1|e] eqn:Em; [|done].
  intros [= <-]. simpl. by apply mkdir_all_below.
Qed.

Lemma name_ne_json r : r ≠ r +:+ ".json".
Proof.
  intros E. apply (f_equal String.length) in E.
  rewrite length_append in E. simpl in E. lia.
Qed.

Lemma name_ne_tmp r : r ≠ (r +:+ ".json") +:+ ".tmp".
Proof.
  intros E. apply (f_equal String.length) in E.
  rewrite !length_append in E. simpl in E. lia.
Qed.

(** X3: a [Write] that returns no error leaves no temporary file: nothing
    exists at the path of the record file with [.tmp] appended. *)
Theorem Write_leaves_no_temp d c r v fs fs' :
  no_sep r = true →
  Write d c r v fs = (Ok (), fs') →
  os.Stat (filepath.Join [filepath.Join [dir d; c]; r +:+ ".json"] +:+ ".tmp")
    fs' = Err ENOENT.
Proof.
  intros Hr Hw. destruct (Write_nonempty _ _ _ _ _ _ Hw) as [Hc _].
  destruct (Write_paths (cwd fs) (dir d) c r Hc Hr) as (_ & Ht & _ & Hrt).
  destruct (Write_dir _ _ _ _ _ _ Hr Hw)
    as (fs1 & m1 & b & _ & _ & _ & _ & Hcwd & Hw').
  rewrite (Stat_walk _ _ Ht), Hcwd, Hrt, (walk_snoc _ _ _ _ Hw').
  rewrite lookup_insert_ne by (intros E; symmetry in E; by apply tmp_ne_json in E).
  by rewrite lookup_delete_eq.
Qed.

(** X4: a [Write] that returns no error changes no other entry of the
    collection directory: for every name other than those of the record
    file and of its temporary file, [os.Stat] and [ioutil.ReadFile] give
    after the [Write] what they gave before. *)
Theorem Write_keeps_other_records d c r v fs fs' name :
  no_sep r = true → real_name name = true →
  name ≠ r +:+ ".json" → name ≠ (r +:+ ".json") +:+ ".tmp" →
  Write d c r v fs = (Ok (), fs') →
  os.Stat (filepath.Join [filepath.Join [dir d; c]; name]) fs'
  = os.Stat (filepath.Join [filepath.Join [dir d; c]; name]) fs
  ∧ os.ReadFile (filepath.Join [filepath.Join [dir d; c]; name]) fs'
    = os.ReadFile (filepath.Join [filepath.Join [dir d; c]; name]) fs.
Proof.
  intros Hr Hname Hk Ht Hw. destruct (Write_nonempty _ _ _ _ _ _ Hw) as [Hc _].
  pose proof (Join_collection_nonempty (dir d) c Hc) as Hdir.
  destruct (Write_dir _ _ _ _ _ _ Hr Hw)
    as (fs1 & m1 & b & Emk & Hw1 & _ & _ & Hcwd & Hw').
  assert (∀ wd, os.resolve wd (filepath.Join [filepath.Join [dir d; c]; name])
                = (os.resolve wd (filepath.Join [dir d; c]) ++ [name])%list)
    as Hres.
  { intros wd. rewrite (path_facts.Join_two _ _ Hdir).
    rewrite <- (path_facts.append_empty_r (filepath.Clean _)).
    rewrite path_facts.resolve_entry by done.
    by rewrite path_facts.append_empty_r. }
  assert (os.walk (root fs')
            (os.resolve (cwd fs) (filepath.Join [dir d; c]) ++ [name])
          = os.walk (root fs)
              (os.resolve (cwd fs) (filepath.Join [dir d; c]) ++ [name]))
    as Hsame.
  { rewrite <- (MkdirAll_below _ _ _ _ _ Emk).
    rewrite (walk_snoc _ _ _ _ Hw'), (walk_snoc _ _ _ _ Hw1).
    by rewrite lookup_insert_ne, lookup_delete_ne. }
  assert (filepath.Join [filepath.Join [dir d; c]; name] ≠ "") as Hne.
  { rewrite (path_facts.Join_two _ _ Hdir). apply path_facts.Clean_nonempty. }
  rewrite !(Stat_walk _ _ Hne), !(ReadFile_walk _ _ Hne).
  by rewrite Hcwd, !Hres, Hsame.
Qed.

Lemma record_file_path wd a c name :
  c ≠ "" → real_name name = true →
  filepath.Join [filepath.Join [a; c]; name] ≠ ""
  ∧ os.resolve wd (filepath.Join [filepath.Join [a; c]; name])
    = (os.resolve wd (filepath.Join [a; c]) ++ [name])%list.
Proof.
  intros Hc Hname.
  pose proof (Join_collection_nonempty a c Hc) as Hdir.
  rewrite (path_facts.Join_two _ _ Hdir).
  split; [apply path_facts.Clean_nonempty|].
  rewrite <- (path_facts.append_empty_r (filepath.Clean _)).
  rewrite path_facts.resolve_entry by done.
  by rewrite path_facts.append_empty_r.
Qed.

(** X5: a [Write] that returns an error changes no record file of the
    collection, and in particular not the one it was to write: reading the
    record file of any resource gives after the failed [Write] what it gave
    before. *)
Theorem Write_error_keeps_records d c r v fs e fs' r' :
  no_sep r = true → no_sep r' = true →
  Write d c r v fs = (Err e, fs') →
  os.ReadFile (filepath.Join [filepath.Join [dir d; c]; r' +:+ ".json"]) fs'
  = os.ReadFile (filepath.Join [filepath.Join [dir d; c]; r' +:+ ".json"]) fs.
Proof.
  intros Hr Hr' Hw.
  destruct (String.eqb_spec c "") as [->|Hc].
  { by injection Hw as _ <-. }
  destruct (String.eqb_spec r "") as [->|Hrn].
  { revert Hw. unfold Write. destruct (String.eqb_spec c ""); [done|].
    by intros [= _ <-]. }
  destruct (os.MkdirAll (filepath.Join [dir d; c]) fs) as [[[]|e1] fs1] eqn:Emk.
  2:{ rewrite (Write_steps _ _ _ _ _ Hc Hrn), Emk in Hw.
      injection Hw as _ <-. by rewrite (MkdirAll_err _ _ _ _ Emk). }
  destruct (MkdirAll_dir _ _ _ Emk) as (Hdir & Hcwd & m1 & Hw1 & _).
  destruct (record_file_path (cwd fs) (dir d) c (r' +:+ ".json") Hc
              (real_name_json r' Hr')) as [Hne Hres].
  rewrite !(ReadFile_walk _ _ Hne).
  assert (cwd fs' = cwd fs
          ∧ os.walk (root fs')
              (os.resolve (cwd fs) (filepath.Join [dir d; c])
               ++ [r' +:+ ".json"])
            = os.walk (root fs1)
                (os.resolve (cwd fs) (filepath.Join [dir d; c])
                 ++ [r' +:+ ".json"])) as [Hcwd' Hsame].
  { rewrite (Write_after_MkdirAll _ _ _ _ _ _ Hc Hrn Emk) in Hw.
    rewrite <- Hcwd in Hw1.
    rewrite (Write_existing _ _ _ _ _ _ Hc Hrn Hr Hw1) in Hw.
    rewrite Hcwd in Hw, Hw1.
    destruct (Marshal v) as [b|e2]; [|by injection Hw as _ <-].
    destruct (m1 !! ((r +:+ ".json") +:+ ".tmp")) as [[bt|mt]|].
    2:{ by injection Hw as _ <-. }
    all: destruct (m1 !! (r +:+ ".json")) as [[bk|mk]|]; try done.
    all: injection Hw as _ <-; split; [done|]; simpl.
    all: rewrite (walk_snoc _ _ _ _ (walk_replace _ _ _ _ Hw1)).
    all: rewrite (walk_snoc _ _ _ _ Hw1).
    all: rewrite lookup_insert_ne; [done|apply tmp_ne_json]. }
  rewrite Hcwd', Hres, Hsame. by rewrite (MkdirAll_below _ _ _ _ _ Emk).
Qed.



(** X8: the last [Write] wins: two [Write]s of the same collection and
    resource that return no error leave the file system as the second one
    alone leaves it, and the second one alone returns no error either. *)
Theorem Write_last_wins d c r v1 v2 fs fs1 fs2 :
  no_sep r = true →
  Write d c r v1 fs = (Ok (), fs1) →
  Write d c r v2 fs1 = (Ok (), fs2) →
  Write d c r v2 fs = (Ok (), fs2).
Proof.
  intros Hr H1 H2. destruct (Write_nonempty _ _ _ _ _ _ H1) as [Hc Hrn].
  destruct (Write_dir _ _ _ _ _ _ Hr H1) as (fsa & ma & _ & Emk & Hwa & _).
  destruct (MkdirAll_dir _ _ _ Emk) as (_ & Hcwd & _).
  rewrite (Write_after_MkdirAll d c r v1 _ _ Hc Hrn Emk) in H1.
  rewrite (Write_after_MkdirAll d c r v2 _ _ Hc Hrn Emk).
  rewrite <- Hcwd in Hwa.
  rewrite (Write_existing d c r v1 _ _ Hc Hrn Hr Hwa) in H1.
  rewrite (Write_existing d c r v2 _ _ Hc Hrn Hr Hwa).
  set (t := (r +:+ ".json") +:+ ".tmp") in *.
  set (k := r +:+ ".json") in *.
  assert (t ≠ k) as Htk by apply tmp_ne_json.
  destruct (Marshal v1) as [b1|e1]; [|done].
  assert (∀ b2, Marshal v2 = Ok b2 →
    Write d c r v2
      {| root := replace (root fsa)
           (os.resolve (cwd fsa) (filepath.Join [dir d; c]))
           (Dir (<[k := File (b1 +:+ newline)]> (delete t ma)));
         cwd := cwd fsa |}
    = (Ok (),
       {| root := replace (root fsa)
            (os.resolve (cwd fsa) (filepath.Join [dir d; c]))
            (Dir (<[k := File (b2 +:+ newline)]> (delete t ma)));
          cwd := cwd fsa |})) as Hsecond.
  { intros b2 Hb2.
    erewrite (Write_existing _ _ _ _ _
                (<[k := File (b1 +:+ newline)]> (delete t ma)) Hc Hrn Hr).
    2:{ cbn [root cwd]. by apply (walk_replace _ _ _ _ Hwa). }
    rewrite Hb2. fold t k. cbn [root cwd].
    rewrite lookup_insert_ne, lookup_delete_eq, lookup_insert_eq by done.
    rewrite (replace_replace _ _ _ _ _ Hwa).
    rewrite delete_insert_ne, delete_delete_eq, insert_insert_eq by done.
    done. }
  destruct (Marshal v2) as [b2|e2] eqn:Hb2.
  2:{ exfalso. destruct (ma !! t) as [[bt|mt]|]; [|done|];
        destruct (ma !! k) as [[bk|mk]|]; try done.
      all: apply (f_equal snd) in H1; cbn [snd] in H1; subst fs1.
      all: erewrite (Write_existing _ _ _ _ _
                (<[k := File (b1 +:+ newline)]> (delete t ma)) Hc Hrn Hr) in H2;
        [|cbn [root cwd]; by apply (walk_replace _ _ _ _ Hwa)].
      all: by rewrite Hb2 in H2. }
  destruct (ma !! t) as [[bt|mt]|]; [|done|];
    destruct (ma !! k) as [[bk|mk]|]; try done.
  all: apply (f_equal snd) in H1; cbn [snd] in H1; subst fs1.
  all: by rewrite (Hsecond b2 eq_refl) in H2.
Qed.

(** The path of [Read] and [Delete] for a resource named by one path
    element. *)
Lemma record_bare_facts wd a c r :
  c ≠ "" → real_name r = true →
  filepath.Join [a; c; r] ≠ ""
  ∧ os.endsWithDot (filepath.Join [a; c; r]) = false
  ∧ os.resolve wd (filepath.Join [a; c; r])
    = (os.resolve wd (filepath.Join [a; c]) ++ [r])%list
  ∧ os.resolve wd (filepath.Join [a; c; r] +:+ ".json")
    = (os.resolve wd (filepath.Join [a; c]) ++ [r +:+ ".json"])%list.
Proof.
  intros Hc Hr.
  pose proof (record_path wd a c r "" Hc Hr eq_refl) as Hrec.
  rewrite !path_facts.append_empty_r in Hrec.
  pose proof (record_path wd a c r ".json" Hc Hr eq_refl) as Hrecj.
  split; [|split; [|done]].
  - simpl. destruct (String.eqb_spec a ""), (String.eqb_spec c "");
      try done; apply path_facts.Clean_nonempty.
  - simpl. destruct (String.eqb_spec a ""), (String.eqb_spec c ""); try done.
    + eapply path_facts.endsWithDot_Clean_top; [|exact Hr].
      by apply path_facts.clean_stack_entry.
    + replace (a +:+ "/" +:+ c +:+ "/" +:+ r)
        with ((a +:+ "/" +:+ c) +:+ "/" +:+ r) by by rewrite append_assoc.
      eapply path_facts.endsWithDot_Clean_top; [|exact Hr].
      apply path_facts.clean_stack_entry; [|done].
      by intros ?%path_facts.append_eq_empty.
Qed.

(** [Delete] of a resource named by one path element, in a collection
    directory that exists, outcome by outcome. *)
Lemma Delete_entry d c r fs m :
  c ≠ "" → real_name r = true →
  os.walk (root fs) (os.resolve (cwd fs) (filepath.Join [dir d; c]))
  = Ok (Dir m) →
  let removed x :=
    (Ok (), {| root := replace (root fs)
                 (os.resolve (cwd fs) (filepath.Join [dir d; c]))
                 (Dir (delete x m));
               cwd := cwd fs |}) in
  Delete d c r fs =
    match m !! r, m !! (r +:+ ".json") with
    | Some (Dir _), _ => removed r
    | Some (File _), _ => removed (r +:+ ".json")
    | None, Some (File _) => removed (r +:+ ".json")
    | None, Some (Dir _) => removed r
    | None, None =>
        (Err (Errorf (filepath.Join [dir d; c; r] +:+ " does not exist")), fs)
    end.
Proof.
  intros Hc Hr Hw removed.
  destruct (record_bare_facts (cwd fs) (dir d) c r Hc Hr)
    as (Hne & Hdot & Hrec & Hrecj).
  assert (filepath.Join [dir d; c; r] +:+ ".json" ≠ "") as Hnej.
  { by intros ?%path_facts.append_eq_empty. }
  pose proof (RemoveAll_entry _ fs _ _ m Hne Hdot Hrec Hw) as Hrm.
  pose proof (RemoveAll_entry _ fs _ _ m Hnej (endsWithDot_json _) Hrecj Hw)
    as Hrmj.
  unfold Delete, mbind, io_bind, try, stat.
  rewrite (Stat_walk _ _ Hne), (Stat_walk _ _ Hnej), Hrec, Hrecj.
  rewrite !(walk_snoc _ _ _ _ Hw).
  destruct (m !! r) as [[b|mr]|]; cbn [mbind result_bind info_of IsNotExist];
    [exact Hrmj|exact Hrm|].
  destruct (m !! (r +:+ ".json")) as [[b|mk]|];
    cbn [mbind result_bind info_of]; [exact Hrmj|exact Hrm|done].
Qed.

(** X9: [Delete] of a stored record by its resource name, when nothing
    exists under that name without extension, returns no error and removes
    the record file; the other entries of the collection directory are as
    before; and a second [Delete] of the resource fails with the error that
    names the path. *)
Theorem Delete_record d c r fs :
  c ≠ "" → real_name r = true →
  os.Stat (filepath.Join [dir d; c; r]) fs = Err ENOENT →
  os.Stat (filepath.Join [dir d; c; r] +:+ ".json") fs = Ok IsRegular →
  ∃ fs', Delete d c r fs = (Ok (), fs')
    ∧ os.Stat (filepath.Join [dir d; c; r] +:+ ".json") fs' = Err ENOENT
    ∧ (∀ name, real_name name = true → name ≠ r +:+ ".json" →
         os.Stat (filepath.Join [filepath.Join [dir d; c]; name]) fs'
         = os.Stat (filepath.Join [filepath.Join [dir d; c]; name]) fs
         ∧ os.ReadFile (filepath.Join [filepath.Join [dir d; c]; name]) fs'
           = os.ReadFile (filepath.Join [filepath.Join [dir d; c]; name]) fs)
    ∧ Delete d c r fs'
      = (Err (Errorf (filepath.Join [dir d; c; r] +:+ " does not exist")), fs').
Proof.
  intros Hc Hr Hbare Hrecord.
  destruct (record_bare_facts (cwd fs) (dir d) c r Hc Hr)
    as (Hne & Hdot & Hrec & Hrecj).
  assert (filepath.Join [dir d; c; r] +:+ ".json" ≠ "") as Hnej.
  { by intros ?%path_facts.append_eq_empty. }
  rewrite (Stat_walk _ _ Hnej), Hrecj in Hrecord.
  destruct (os.walk (root fs) (_ ++ [r +:+ ".json"])) as [n|e] eqn:Ew; [|done].
  destruct (walk_snoc_inv _ _ _ _ Ew) as (m & Hw & Hmk).
  destruct n as [b|mn]; [|done].
  rewrite (Stat_walk _ _ Hne), Hrec, (walk_snoc _ _ _ _ Hw) in Hbare.
  destruct (m !! r) as [n|] eqn:Hmr; [done|].
  eexists. split; [|split; [|split]].
  - rewrite (Delete_entry _ _ _ _ _ Hc Hr Hw), Hmr, Hmk. reflexivity.
  - rewrite (Stat_walk _ _ Hnej). cbn [root cwd]. rewrite Hrecj.
    rewrite (walk_snoc _ _ _ _ (walk_replace _ _ _ _ Hw)).
    by rewrite lookup_delete_eq.
  - intros name Hname Hk.
    destruct (record_file_path (cwd fs) (dir d) c name Hc Hname) as [Hnn Hres].
    rewrite !(Stat_walk _ _ Hnn), !(ReadFile_walk _ _ Hnn). cbn [root cwd].
    rewrite Hres, (walk_snoc _ _ _ _ (walk_replace _ _ _ _ Hw)).
    rewrite (walk_snoc _ _ _ _ Hw). by rewrite lookup_delete_ne.
  - erewrite Delete_entry; [|done|done|].
    2:{ cbn [root cwd]. by apply (walk_replace _ _ _ _ Hw). }
    rewrite lookup_delete_eq, lookup_delete_ne, Hmr; [done|].
    apply not_eq_sym, name_ne_json.
Qed.



(** X12: [Delete] undoes [Write]: in a collection directory that exists and
    holds nothing under the names of the resource, of its record file and
    of its temporary file, a [Write] that returns no error followed by
    [Delete] of the resource gives back the file system as it was. *)
Theorem Write_then_Delete_restores d c r v fs fs' :
  real_name r = true →
  os.Stat (filepath.Join [dir d; c]) fs = Ok IsDir →
  os.Stat (filepath.Join [dir d; c; r]) fs = Err ENOENT →
  os.Stat (filepath.Join [filepath.Join [dir d; c]; r +:+ ".json"]) fs
  = Err ENOENT →
  os.Stat (filepath.Join [filepath.Join [dir d; c]; r +:+ ".json"] +:+ ".tmp")
    fs = Err ENOENT →
  Write d c r v fs = (Ok (), fs') →
  Delete d c r fs' = (Ok (), fs).
Proof.
  intros Hr Hdir Hbare Hrecord Htmp Hw.
  apply path_facts.real_name_spec in Hr as Hr'.
  destruct Hr' as (Hrn & _ & _ & Hns).
  destruct (Write_nonempty _ _ _ _ _ _ Hw) as [Hc _].
  destruct (record_bare_facts (cwd fs) (dir d) c r Hc Hr)
    as (Hne & Hdot & Hrec & Hrecj).
  destruct (Write_paths (cwd fs) (dir d) c r Hc Hns) as (Hf & Ht & Hrf & Hrt).
  pose proof (Join_collection_nonempty (dir d) c Hc) as Hd.
  rewrite (Stat_walk _ _ Hd) in Hdir.
  destruct (os.walk (root fs) (os.resolve (cwd fs) (filepath.Join [dir d; c])))
    as [[b0|m]|e] eqn:Hwd; try done.
  rewrite (Stat_walk _ _ Hne), Hrec, (walk_snoc _ _ _ _ Hwd) in Hbare.
  rewrite (Stat_walk _ _ Hf), Hrf, (walk_snoc _ _ _ _ Hwd) in Hrecord.
  rewrite (Stat_walk _ _ Ht), Hrt, (walk_snoc _ _ _ _ Hwd) in Htmp.
  destruct (m !! r) as [n|] eqn:Hmr; [done|].
  destruct (m !! (r +:+ ".json")) as [n|] eqn:Hmk; [done|].
  destruct (m !! ((r +:+ ".json") +:+ ".tmp")) as [n|] eqn:Hmt; [done|].
  rewrite (Write_existing _ _ _ _ _ _ Hc Hrn Hns Hwd), Hmt, Hmk in Hw.
  destruct (Marshal v) as [b|e]; [|done].
  apply (f_equal snd) in Hw. cbn [snd] in Hw. subst fs'.
  erewrite Delete_entry; [|done|done|].
  2:{ cbn [root cwd]. by apply (walk_replace _ _ _ _ Hwd). }
  rewrite lookup_insert_eq.
  rewrite lookup_insert_ne, lookup_delete_ne, Hmr;
    [|apply not_eq_sym, name_ne_tmp|apply not_eq_sym, name_ne_json].
  cbn [root cwd]. rewrite (replace_replace _ _ _ _ _ Hwd).
  rewrite delete_insert_eq, !delete_id by by rewrite ?delete_id.
  rewrite (replace_same _ _ _ Hwd). by destruct fs.
Qed.

(** The loop of [ReadAll] changes nothing, and returns the contents of the
    files in the order of the names, or fails. *)
Lemma read_files_spec dir0 names fs :
  snd (read_files dir0 names fs) = fs
  ∧ ∀ records,
      fst (read_files dir0 names fs) = Ok records
      ↔ Forall2 (λ name rec,
                   os.ReadFile (filepath.Join [dir0; name]) fs = Ok rec)
                names records.
Proof.
  induction names as [|name names [IHs IH]].
  - split; [done|]. intros records. split.
    + intros [= <-]. constructor.
    + by intros ->%Forall2_nil_inv_l.
  - cbn [read_files]. unfold mbind at 1 3, io_bind at 1 3, check at 1 2.
    destruct (os.ReadFile (filepath.Join [dir0; name]) fs) as [b|e] eqn:Eb.
    2:{ split; [done|]. intros records. split; [done|].
        intros (rec & recs & Hb & _ & _)%Forall2_cons_inv_l.
        by rewrite Eb in Hb. }
    unfold mbind, io_bind.
    destruct (read_files dir0 names fs) as [[rs|e] fs1] eqn:Er;
      simpl in IHs; subst fs1.
    + split; [done|]. intros records. cbn [fst]. split.
      * intros [= <-]. constructor; [done|]. by apply IH.
      * intros (rec & recs & Hb & Hrest & ->)%Forall2_cons_inv_l.
        apply IH in Hrest. cbn [fst] in Hrest. rewrite Eb in Hb.
        injection Hb as <-. by injection Hrest as <-.
    + split; [done|]. intros records. cbn [fst]. split; [done|].
      intros (rec & recs & Hb & Hrest & ->)%Forall2_cons_inv_l.
      by apply IH in Hrest.
Qed.

(** X13: [Read] and [ReadAll] only look: whatever they return, the file
    system is as it was. *)
Theorem Read_ReadAll_change_nothing d c r fs :
  snd (Read (V:=V) d c r fs) = fs ∧ snd (ReadAll d c fs) = fs.
Proof.
  split.
  - unfold Read. destruct (String.eqb c ""); [done|].
    destruct (String.eqb r ""); [done|].
    unfold mbind, io_bind, try, check, raise.
    destruct (os.Stat _ fs) as [i|e]; [|destruct (IsNotExist e); [done|]];
      by destruct (os.ReadFile _ fs).
  - unfold ReadAll. destruct (String.eqb c ""); [done|].
    unfold mbind, io_bind, check.
    destruct (stat _ fs); [|done]. destruct (os.ReadDir _ fs); [|done].
    apply read_files_spec.
Qed.

Lemma ReadDir_Stat path fs names :
  os.ReadDir path fs = Ok names → os.Stat path fs = Ok IsDir.
Proof.
  unfold os.ReadDir, os.Stat. destruct (os.locate fs path); [|done]. simpl.
  destruct (os.walk (root fs) a) as [[b|m]|e]; done.
Qed.

Lemma ReadAll_listed d c fs names :
  c ≠ "" →
  os.ReadDir (filepath.Join [dir d; c]) fs = Ok names →
  ReadAll d c fs = read_files (filepath.Join [dir d; c]) names fs.
Proof.
  intros Hc Hrd. unfold ReadAll. destruct (String.eqb_spec c ""); [done|].
  unfold mbind, io_bind, check, stat.
  by rewrite (ReadDir_Stat _ _ _ Hrd), Hrd.
Qed.

#[local] Instance string_leb_total :
  Total (λ x y : string, String.leb x y : Prop).
Proof.
  intros x y. destruct (String.leb_total x y) as [E|E]; rewrite E; eauto.
Qed.

(** X14: when [ReadAll] returns records, there is one for each entry of the
    collection directory, each the content of that entry, in ascending
    order of the entries' names. *)
Theorem ReadAll_in_name_order d c fs records fs' :
  ReadAll d c fs = (Ok records, fs') →
  ∃ names,
    os.ReadDir (filepath.Join [dir d; c]) fs = Ok names
    ∧ Sorted (λ x y, String.leb x y) names
    ∧ NoDup names
    ∧ Forall2 (λ name rec,
                 os.ReadFile
                   (filepath.Join [filepath.Join [dir d; c]; name]) fs
                 = Ok rec)
              names records.
Proof.
  intros Hra.
  assert (c ≠ "") as Hc by (intros ->; by revert Hra).
  destruct (os.ReadDir (filepath.Join [dir d; c]) fs) as [names|e] eqn:Hrd.
  2:{ revert Hra. unfold ReadAll. destruct (String.eqb_spec c ""); [done|].
      unfold mbind, io_bind, check. destruct (stat _ fs); [|done].
      by rewrite Hrd. }
  exists names. split; [done|].
  rewrite (ReadAll_listed _ _ _ _ Hc Hrd) in Hra.
  assert (Sorted (λ x y, String.leb x y) names ∧ NoDup names) as [Hs Hn].
  { revert Hrd. unfold os.ReadDir. destruct (os.locate fs _); [|done]. simpl.
    destruct (os.walk (root fs) a) as [[b|m]|e]; try done. intros [= <-].
    split; [apply (Sorted_merge_sort _)|].
    rewrite merge_sort_Permutation. apply NoDup_fst_map_to_list. }
  do 2 (split; [done|]).
  apply (proj2 (read_files_spec _ names fs)). by rewrite Hra.
Qed.

Lemma Stat_dir_ReadFile path fs :
  os.Stat path fs = Ok IsDir → os.ReadFile path fs = Err EISDIR.
Proof.
  unfold os.ReadFile, os.Stat. destruct (os.locate fs path); [|done]. simpl.
  destruct (os.walk (root fs) a) as [[b|m]|e]; done.
Qed.

(** X15: [ReadAll] does not descend: when an entry of the collection
    directory is itself a directory, [ReadAll] fails and returns no
    records. *)
Theorem ReadAll_subdirectory d c fs names name :
  c ≠ "" →
  os.ReadDir (filepath.Join [dir d; c]) fs = Ok names →
  name ∈ names →
  os.Stat (filepath.Join [filepath.Join [dir d; c]; name]) fs = Ok IsDir →
  ∃ e, ReadAll d c fs = (Err e, fs).
Proof.
  intros Hc Hrd Hin Hst. rewrite (ReadAll_listed _ _ _ _ Hc Hrd).
  destruct (read_files_spec (filepath.Join [dir d; c]) names fs) as [Hs Hf].
  destruct (read_files _ names fs) as [[records|e] fs1]; simpl in Hs; subst.
  - exfalso. specialize (Hf records). cbn [fst] in Hf.
    destruct Hf as [Hf _]. specialize (Hf eq_refl).
    apply list_elem_of_lookup in Hin as [i Hi].
    destruct (Forall2_lookup_l _ _ _ _ _ Hf Hi) as (rec & _ & Hrec).
    by rewrite (Stat_dir_ReadFile _ _ Hst) in Hrec.
  - eauto.
Qed.




(** X19: a store opened on a regular file cannot be written: when the root
    of the driver is a regular file, which [New] accepts, [Write] into a
    collection named by one path element fails with [ENOTDIR] and changes
    nothing. *)
Theorem Write_below_regular_root d c r v fs :
  os.Stat (dir d) fs = Ok IsRegular →
  real_name c = true → r ≠ "" →
  Write d c r v fs = (Err ENOTDIR, fs).
Proof.
  intros Hst Hc Hr.
  apply path_facts.real_name_spec in Hc as Hc'. destruct Hc' as (Hcn & _).
  assert (dir d ≠ "") as Hd by (intros E; by rewrite E in Hst).
  rewrite (Stat_walk _ _ Hd) in Hst.
  destruct (os.walk (root fs) (os.resolve (cwd fs) (dir d)))
    as [[b|m]|e] eqn:Ew; try done.
  rewrite (Write_steps _ _ _ _ _ Hcn Hr).
  assert (os.MkdirAll (filepath.Join [dir d; c]) fs = (Err ENOTDIR, fs))
    as ->; [|done].
  unfold os.MkdirAll, os.locate.
  pose proof (Join_collection_nonempty (dir d) c Hcn) as Hne.
  destruct (String.eqb_spec (filepath.Join [dir d; c]) ""); [done|].
  cbn [mbind result_bind]. rewrite (path_facts.Join_two _ _ Hd).
  rewrite <- (path_facts.append_empty_r (filepath.Clean _)).
  rewrite path_facts.resolve_entry, path_facts.append_empty_r by done.
  by rewrite (mkdir_all_through_file _ _ [] _ _ Ew).
Qed.

(** An empty element in the middle of a path is cleaned away. *)
Lemma Clean_empty_element a c :
  a ≠ "" →
  filepath.Clean (a +:+ "/" +:+ "" +:+ "/" +:+ c)
  = filepath.Clean (a +:+ "/" +:+ c).
Proof.
  intros Ha. unfold filepath.Clean, filepath.clean_stack.
  rewrite !path_facts.rooted_app by done.
  rewrite !path_facts.split_app_sep, !fold_left_app.
  destruct (String.eqb_spec (a +:+ "/" +:+ "" +:+ "/" +:+ c) "") as [E|_].
  { by apply path_facts.append_eq_empty in E. }
  destruct (String.eqb_spec (a +:+ "/" +:+ c) "") as [E|_]; [|done].
  by apply path_facts.append_eq_empty in E.
Qed.

Lemma Join_swapped a c :
  filepath.Join [a; ""; c] = filepath.Join [a; c; ""].
Proof.
  destruct (String.eqb_spec c "") as [->|Hc]; [done|].
  rewrite (Join_empty_resource_dir _ _ Hc). simpl.
  destruct (String.eqb_spec a ""), (String.eqb_spec c ""); try done.
  by apply Clean_empty_element.
Qed.

(** X20: the two keys of [Delete] are joined into one path, so a key that is
    empty leaves the other one to name the target: [Delete] with an empty
    collection and the resource [c] does to the file system what [Delete] of
    the collection [c] with an empty resource does. *)
Theorem Delete_swapped_keys d c fs :
  Delete d "" c fs = Delete d c "" fs.
Proof. unfold Delete. by rewrite Join_swapped. Qed.

(** The root directory of a driver, given as the entry [name] of a
    directory, is the target of [Delete] with two empty keys. *)
Lemma root_target wd a name :
  real_name name = true →
  let root_dir := filepath.Join [a; name] in
  let target := filepath.Join [root_dir; ""; ""] in
  target ≠ "" ∧ os.endsWithDot target = false
  ∧ ∃ parent, os.resolve wd root_dir = (parent ++ [name])%list
              ∧ os.resolve wd target = (parent ++ [name])%list
              ∧ os.resolve wd (target +:+ ".json")
                = (parent ++ [name +:+ ".json"])%list.
Proof.
  intros Hname root_dir target.
  destruct (collection_dir wd a name Hname) as (Hne & _ & parent & Hres).
  fold root_dir in Hne, Hres.
  pose proof (Hres "" eq_refl) as Hres0.
  rewrite !path_facts.append_empty_r in Hres0.
  assert (target = filepath.Clean root_dir) as Et.
  { unfold target. simpl. destruct (String.eqb_spec root_dir ""); [done|].
    replace (root_dir +:+ "/" +:+ "" +:+ "/" +:+ "")
      with ((root_dir +:+ "/" +:+ "") +:+ "/" +:+ "")
      by by rewrite append_assoc.
    rewrite Clean_trailing_sep by by intros ?%path_facts.append_eq_empty.
    by apply Clean_trailing_sep. }
  assert (∃ st, filepath.clean_stack root_dir = name :: st) as [st Hst].
  { destruct (path_facts.split_Clean
                (if String.eqb a "" then name else a +:+ "/" +:+ name))
      as (pre & Hsp & _ & _).
    assert (∃ st0, filepath.clean_stack
                     (if String.eqb a "" then name else a +:+ "/" +:+ name)
                   = name :: st0) as [st0 Hst0].
    { apply path_facts.real_name_spec in Hname as Hn.
      destruct Hn as (_ & _ & _ & Hns).
      destruct (String.eqb_spec a "").
      - exists []. unfold filepath.clean_stack.
        rewrite path_facts.split_no_sep by done. simpl.
        by rewrite path_facts.clean_step_real.
      - eexists. by apply path_facts.clean_stack_entry. }
    rewrite Hst0 in Hsp. simpl in Hsp. rewrite app_assoc in Hsp.
    assert (root_dir
            = filepath.Clean
                (if String.eqb a "" then name else a +:+ "/" +:+ name)) as Er.
    { unfold root_dir. simpl.
      apply path_facts.real_name_spec in Hname as (Hn & _).
      destruct (String.eqb_spec a ""), (String.eqb_spec name ""); done. }
    unfold filepath.clean_stack. rewrite Er, Hsp, fold_left_app. simpl.
    rewrite path_facts.clean_step_real by done. eauto. }
  rewrite Et. split; [apply path_facts.Clean_nonempty|]. split.
  { by eapply path_facts.endsWithDot_Clean_top. }
  exists parent. split; [done|]. split.
  - by rewrite path_facts.resolve_Clean.
  - rewrite (path_facts.resolve_Clean_top wd _ name st ".json" Hst Hname eq_refl).
    pose proof (path_facts.resolve_Clean_top wd _ name st "" Hst Hname eq_refl)
      as H0.
    rewrite !path_facts.append_empty_r, path_facts.resolve_Clean, Hres0 in H0.
    apply app_inj_tail in H0 as [<- _]. done.
Qed.

(** X21: [Delete] with both keys empty removes the whole store: for a
    driver whose root directory, the entry [name] of some directory, exists,
    it returns no error, and nothing is left at the root path or below. *)
Theorem Delete_empty_keys_removes_root d a name fs :
  real_name name = true →
  dir d = filepath.Join [a; name] →
  os.Stat (dir d) fs = Ok IsDir →
  ∃ fs', Delete d "" "" fs = (Ok (), fs')
    ∧ ∀ q, os.walk (root fs') (os.resolve (cwd fs') (dir d) ++ q)
           = Err ENOENT.
Proof.
  intros Hname Hd Hst.
  destruct (root_target (cwd fs) a name Hname)
    as (Hne & Hdot & parent & Hrd & Hrt & Hrj).
  rewrite <- Hd in Hne, Hdot, Hrd, Hrt, Hrj.
  assert (dir d ≠ "") as Hdn by (intros E; by rewrite E in Hst).
  rewrite (Stat_walk _ _ Hdn), Hrd in Hst.
  destruct (os.walk (root fs) (parent ++ [name])) as [n|e] eqn:Ew; [|done].
  destruct (walk_snoc_inv _ _ _ _ Ew) as (mp & Hwp & Hmn).
  destruct n as [b|m]; [done|].
  eexists. split.
  - unfold Delete, mbind, io_bind, try, stat.
    rewrite (Stat_walk _ _ Hne), Hrt, Ew. cbn [mbind result_bind info_of].
    apply (RemoveAll_entry _ _ _ _ _ Hne Hdot Hrt Hwp).
  - intros q. cbn [root cwd]. rewrite Hrd, <- app_assoc, walk_app.
    rewrite (walk_replace _ _ _ _ Hwp). simpl. by rewrite lookup_delete_eq.
Qed.

End more.

(** ** The further properties on the sample run *)

Lemma Write_leaves_no_temp_witness :
  no_sep "John" = true
  ∧ Write db "user" "John" (JBool true) fs_opened = (Ok (), fs_john)
  ∧ os.Stat
      (filepath.Join [filepath.Join [dir db; "user"]; "John" +:+ ".json"]
       +:+ ".tmp") fs_john = Err ENOENT.
Proof.
  assert (Write db "user" "John" (JBool true) fs_opened = (Ok (), fs_john))
    as Hw by by vm_compute.
  split; [done|]. split; [exact Hw|].
  by apply (Write_leaves_no_temp db "user" "John" (JBool true) fs_opened).
Defined.

Lemma Write_keeps_other_records_witness :
  Write db "user" "Paul" (JBool false) fs_john = (Ok (), fs_two)
  ∧ os.ReadFile (filepath.Join [filepath.Join [dir db; "user"]; "John.json"])
      fs_two
    = os.ReadFile (filepath.Join [filepath.Join [dir db; "user"]; "John.json"])
        fs_john.
Proof.
  assert (Write db "user" "Paul" (JBool false) fs_john = (Ok (), fs_two))
    as Hw by by vm_compute.
  split; [exact Hw|].
  by apply (Write_keeps_other_records db "user" "Paul" (JBool false)
              fs_john fs_two "John.json").
Defined.

Lemma Write_error_keeps_records_witness :
  Write db "team" "John" JFunc fs_john
  = (Err unsupported, after (Write db "team" "John" JFunc) fs_john)
  ∧ os.ReadFile
      (filepath.Join [filepath.Join [dir db; "team"]; "Paul" +:+ ".json"])
      (after (Write db "team" "John" JFunc) fs_john)
    = os.ReadFile
        (filepath.Join [filepath.Join [dir db; "team"]; "Paul" +:+ ".json"])
        fs_john.
Proof.
  assert (Write db "team" "John" JFunc fs_john
          = (Err unsupported, after (Write db "team" "John" JFunc) fs_john))
    as Hw by by vm_compute.
  split; [exact Hw|].
  exact (Write_error_keeps_records db "team" "John" JFunc fs_john
           unsupported _ "Paul" eq_refl eq_refl Hw).
Defined.



Lemma Write_last_wins_witness :
  Write db "user" "John" (JBool true) fs_opened = (Ok (), fs_john)
  ∧ Write db "user" "John" JNull fs_john
    = (Ok (), after (Write db "user" "John" JNull) fs_john)
  ∧ Write db "user" "John" JNull fs_opened
    = (Ok (), after (Write db "user" "John" JNull) fs_john).
Proof.
  assert (Write db "user" "John" (JBool true) fs_opened = (Ok (), fs_john))
    as H1 by by vm_compute.
  assert (Write db "user" "John" JNull fs_john
          = (Ok (), after (Write db "user" "John" JNull) fs_john))
    as H2 by by vm_compute.
  split; [exact H1|]. split; [exact H2|].
  exact (Write_last_wins db "user" "John" (JBool true) JNull _ _ _
           eq_refl H1 H2).
Defined.

Lemma Delete_record_witness :
  os.Stat (filepath.Join [dir db; "user"; "John"]) fs_john = Err ENOENT
  ∧ os.Stat (filepath.Join [dir db; "user"; "John"] +:+ ".json") fs_john
    = Ok IsRegular
  ∧ ∃ fs', Delete db "user" "John" fs_john = (Ok (), fs')
      ∧ os.Stat (filepath.Join [dir db; "user"; "John"] +:+ ".json") fs'
        = Err ENOENT.
Proof.
  split; [by vm_compute|]. split; [by vm_compute|].
  destruct (Delete_record db "user" "John" fs_john)
    as (fs' & Hd & Hgone & _); [done|by vm_compute|by vm_compute|by vm_compute|].
  by exists fs'.
Defined.



Lemma Write_then_Delete_restores_witness :
  Write db "user" "Paul" (JBool false) fs_john = (Ok (), fs_two)
  ∧ Delete db "user" "Paul" fs_two = (Ok (), fs_john).
Proof.
  assert (Write db "user" "Paul" (JBool false) fs_john = (Ok (), fs_two))
    as Hw by by vm_compute.
  split; [exact Hw|].
  apply (Write_then_Delete_restores db "user" "Paul" (JBool false)
           fs_john fs_two); [by vm_compute..|exact Hw].
Defined.

Lemma ReadAll_in_name_order_witness :
  ReadAll db "user" fs_two
  = (Ok ["true" +:+ newline; "false" +:+ newline], fs_two)
  ∧ ∃ names,
      os.ReadDir (filepath.Join [dir db; "user"]) fs_two = Ok names
      ∧ Sorted (λ x y, String.leb x y) names
      ∧ NoDup names
      ∧ Forall2 (λ name rec,
                   os.ReadFile
                     (filepath.Join [filepath.Join [dir db; "user"]; name])
                     fs_two = Ok rec)
                names ["true" +:+ newline; "false" +:+ newline].
Proof.
  assert (ReadAll db "user" fs_two
          = (Ok ["true" +:+ newline; "false" +:+ newline], fs_two))
    as Hr by by vm_compute.
  split; [exact Hr|].
  exact (ReadAll_in_name_order db "user" fs_two _ _ Hr).
Defined.

Lemma ReadAll_subdirectory_witness :
  os.ReadDir (filepath.Join [dir db; "user"]) fs_nested
  = Ok ["John"; "John.json"]
  ∧ os.Stat (filepath.Join [filepath.Join [dir db; "user"]; "John"]) fs_nested
    = Ok IsDir
  ∧ ∃ e, ReadAll db "user" fs_nested = (Err e, fs_nested).
Proof.
  assert (os.ReadDir (filepath.Join [dir db; "user"]) fs_nested
          = Ok ["John"; "John.json"]) as Hrd by by vm_compute.
  split; [exact Hrd|]. split; [by vm_compute|].
  apply (ReadAll_subdirectory db "user" fs_nested ["John"; "John.json"] "John");
    [done|exact Hrd|by left|by vm_compute].
Defined.




Lemma Write_below_regular_root_witness :
  os.Stat (dir db_on_file) fs_john = Ok IsRegular
  ∧ Write db_on_file "user" "John" (JBool true) fs_john
    = (Err ENOTDIR, fs_john).
Proof.
  split; [by vm_compute|].
  apply (Write_below_regular_root db_on_file "user" "John" (JBool true));
    by vm_compute.
Defined.

Lemma Delete_empty_keys_removes_root_witness :
  real_name "db" = true
  ∧ dir db = filepath.Join [""; "db"]
  ∧ os.Stat (dir db) fs_john = Ok IsDir
  ∧ ∃ fs', Delete db "" "" fs_john = (Ok (), fs')
      ∧ ∀ q, os.walk (root fs') (os.resolve (cwd fs') (dir db) ++ q)
             = Err ENOENT.
Proof.
  split; [by vm_compute|]. split; [by vm_compute|]. split; [by vm_compute|].
  apply (Delete_empty_keys_removes_root db "" "db" fs_john); by vm_compute.
Defined.
